(** * quant/data.py: the MongoDB access layer of the trading platform

    A shallow embedding of [KLineData], [AssetData], [AssetSnapshotData]
    and [OrderData] from [src/quant/data.py], with the properties of the
    natural-language specification stated and settled against it.

    Documents are Python dicts, modelled as [gmap string value]; a
    collection is the list of its documents in insertion order; the
    driver class [MongoDBBase] (module [quant.utils.mongo]) is not part of
    the sources and is modelled from the specification's description of
    the four primitives. *)

From Stdlib Require Import ZArith Ascii String List Sorted Permutation Lia.
From stdpp Require Import base option list gmap strings fin_maps sorting.

Local Open Scope string_scope.
Local Open Scope Z_scope.

(** ** Values and documents *)

(** The values the layer stores in a document field: millisecond
    timestamps and other integers, text, the per-currency balance triple
    [{"free": .., "locked": .., "total": ..}] of decimal strings, and the
    identifier the store generates for a document. *)
Inductive value : Type :=
  | VInt (n : Z)
  | VStr (s : string)
  | VBalance (free locked total : string)
  | VId (n : nat).

#[global] Instance value_eq_dec : EqDecision value.
Proof. solve_decision. Defined.

(** A document: field name to value. *)
Abbreviation doc := (gmap string value).

(** A collection handle, [self._conn[db][collection]]: the database name
    and the collection name. *)
Abbreviation cursor := (string * string)%type.

(** ** Filters, sort specifications, projections *)

(** A condition on one field of a filter: [{"f": v}] is [Is v], and
    [{"f": {"$gte": a, "$lte": b}}] is [Between (Some a) (Some b)], either
    bound being optional ([{"$lte": b}] is [Between None (Some b)]). *)
Inductive cond : Type :=
  | Is (v : value)
  | Between (gte lte : option Z).

Abbreviation query := (list (string * cond)).

Definition lower_ok (gte : option Z) (t : Z) : bool :=
  match gte with Some a => a <=? t | None => true end.

Definition upper_ok (lte : option Z) (t : Z) : bool :=
  match lte with Some b => t <=? b | None => true end.

Definition match_cond (c : cond) (o : option value) : bool :=
  match c, o with
  | Is v, Some w => bool_decide (v = w)
  | Between gte lte, Some (VInt t) => lower_ok gte t && upper_ok lte t
  | _, _ => false
  end.

Definition matches (q : query) (d : doc) : bool :=
  forallb (fun kc => match_cond kc.2 (d !! kc.1)) q.

(** The integer held by field [f], the key a sort on [f] compares. A
    document without the field sorts lowest. *)
Definition int_field (f : string) (d : doc) : option Z :=
  match d !! f with
  | Some (VInt t) => Some t
  | _ => None
  end.

Definition opt_ltb (x y : option Z) : bool :=
  match x, y with
  | None, Some _ => true
  | Some a, Some b => a <? b
  | _, None => false
  end.

(** [key_ltb dir]: strictly before, in direction [dir] ([1] ascending,
    [-1] descending). *)
Definition key_ltb (dir : Z) (x y : option Z) : bool :=
  if 0 <=? dir then opt_ltb x y else opt_ltb y x.

(** [doc_leb s a b]: [a] may stand before [b] under the sort
    specification [s], a list of [(field, direction)] pairs compared
    lexicographically. *)
Fixpoint doc_leb (s : list (string * Z)) (a b : doc) : bool :=
  match s with
  | [] => true
  | (f, dir) :: rest =>
      if key_ltb dir (int_field f a) (int_field f b) then true
      else if key_ltb dir (int_field f b) (int_field f a) then false
      else doc_leb rest a b
  end.

Fixpoint insert_sorted (s : list (string * Z)) (d : doc) (l : list doc) : list doc :=
  match l with
  | [] => [d]
  | e :: l' => if doc_leb s d e then d :: e :: l' else e :: insert_sorted s d l'
  end.

(** Stable sort: documents with equal keys keep their stored order. *)
Definition sort_docs (s : list (string * Z)) (l : list doc) : list doc :=
  foldr (insert_sorted s) [] l.

(** A projection [{"f": 0, "g": 0}] names the fields to leave out. *)
Definition project (fields : list string) (d : doc) : doc :=
  foldr delete d fields.

(** ** The document store *)

Record mongo : Type := Mongo {
  colls : gmap (string * string) (list (gmap string value));
  next_id : nat
}.

Definition docs_at (cur : cursor) (db : mongo) : list doc :=
  default [] (colls db !! cur).

Definition set_docs (cur : cursor) (l : list doc) (db : mongo) : mongo :=
  {| colls := <[cur := l]> (colls db); next_id := next_id db |}.

(** A new document takes the next identifier and goes to the end of its
    collection. *)
Definition add_doc (cur : cursor) (d : doc) (db : mongo) : mongo :=
  {| colls := <[cur := (docs_at cur db ++ [d])%list]> (colls db);
     next_id := S (next_id db) |}.

Definition empty_mongo : mongo := {| colls := ∅; next_id := 0 |}.

(** Modelled from the spec: [MongoDBBase.insert] of [quant.utils.mongo],
    which is not among the sources. "insert: document, partition handle ->
    generated identifier"; the stored document carries the generated
    identifier and the store's bookkeeping fields (creation and update
    time). *)
Definition insert (now : Z) (d : doc) (cur : cursor) (db : mongo) : value * mongo :=
  let oid := VId (next_id db) in
  let stored :=
    <["update_time" := VInt now]> (<["create_time" := VInt now]> (<["_id" := oid]> d)) in
  (oid, add_doc cur stored db).

(** Modelled from the spec: [MongoDBBase.get_list] of [quant.utils.mongo].
    "findMany: filter, optional projection, optional sort spec, partition
    handle -> ordered sequence of documents (possibly empty)". *)
Definition get_list (spec : query) (fields : list string) (sort : list (string * Z))
    (cur : cursor) (db : mongo) : list doc :=
  project fields <$> sort_docs sort (filter (λ d, matches spec d = true) (docs_at cur db)).

(** Modelled from the spec: [MongoDBBase.find_one] of [quant.utils.mongo].
    "findOne: filter, optional sort spec, optional field projection,
    partition handle -> single document or absent", first match wins. *)
Definition find_one (spec : query) (fields : list string) (sort : list (string * Z))
    (cur : cursor) (db : mongo) : option doc :=
  head (get_list spec fields sort cur db).

(** The write of one update: set the given fields, then remove the
    unset ones. *)
Definition apply_update (set_fields : doc) (unset_fields : list string) (d : doc) : doc :=
  foldr delete (set_fields ∪ d) unset_fields.

Fixpoint update_first (p : doc → bool) (f : doc → doc) (l : list doc) : option (list doc) :=
  match l with
  | [] => None
  | d :: l' => if p d then Some (f d :: l') else (d ::.) <$> update_first p f l'
  end.

(** The document an upsert starts from: the equality fields of the
    filter. *)
Definition query_doc (q : query) : doc :=
  foldr (λ kc acc, match kc.2 with Is v => <[kc.1 := v]> acc | Between _ _ => acc end) ∅ q.

(** Modelled from the spec: [MongoDBBase.update] of [quant.utils.mongo].
    "update: filter, set-fields, optional unset-field-names, upsert flag,
    partition handle -> count of affected documents": the first document
    matching the filter is written in place; when none matches and the
    upsert flag is set, a document is created from the filter's equality
    fields and written the same way. The count is the number of existing
    documents updated ("How many documents have been updated"). *)
Definition update (spec : query) (set_fields : doc) (unset_fields : list string)
    (upsert : bool) (cur : cursor) (db : mongo) : Z * mongo :=
  match update_first (λ d, matches spec d) (apply_update set_fields unset_fields)
          (docs_at cur db) with
  | Some l' => (1, set_docs cur l' db)
  | None =>
      if upsert then
        let created :=
          apply_update set_fields unset_fields (<["_id" := VId (next_id db)]> (query_doc spec)) in
        (0, add_doc cur created db)
      else (0, db)
  end.

(** ** Python helpers *)

(** [s.split(sep)] for a one-character separator: one more part than
    there are separators in [s]; [["".split("/")]] is [[""]]. *)
Fixpoint split (sep : ascii) (s : string) : list string :=
  match s with
  | EmptyString => [EmptyString]
  | String c s' =>
      if Ascii.eqb c sep then EmptyString :: split sep s'
      else match split sep s' with
           | [] => [String c EmptyString]
           | part :: parts => String c part :: parts
           end
  end.

(** [c.lower()] on the ASCII letters. *)
Definition lower_ascii (c : ascii) : ascii :=
  let n := nat_of_ascii c in
  if (65 <=? n)%nat && (n <=? 90)%nat then ascii_of_nat (n + 32) else c.

Fixpoint lower (s : string) : string :=
  match s with
  | EmptyString => EmptyString
  | String c s' => String (lower_ascii c) (lower s')
  end.

(** Truth value of an optional integer argument: [None] and [0] are
    false. *)
Definition truthy (x : option Z) : bool :=
  match x with
  | Some n => negb (n =? 0)
  | None => false
  end.

(** ** Errors and the state of a [KLineData] instance *)

(** The exception of [x, y = symbol.split("/")] when the split does not
    give two parts; the specification calls it [InvalidSymbolFormat]. *)
Inductive error : Type := ValueError.

Inductive result (A : Type) : Type :=
  | Ok (a : A)
  | Err (e : error).
Arguments Ok {A} a.
Arguments Err {A} e.

(** The attributes of a [KLineData] instance. [resolutions] is not an
    attribute: it records, in order, every evaluation of
    [self._conn[self._db][collection]], with the symbol it was made
    for. *)
Record KLineData : Type := {
  _db : string;
  _k_to_c : gmap string (string * string);
  _conn : mongo;
  resolutions : list (string * (string * string))
}.

(** [KLineData.__init__(platform)]. *)
Definition KLineData_init (platform : string) (db : mongo) : KLineData :=
  {| _db := platform; _k_to_c := ∅; _conn := db; resolutions := [] |}.

(** A method of [KLineData]: it returns a value and the instance as it
    leaves it, or raises, leaving the instance as it was. *)
Definition M (A : Type) : Type := KLineData → result (A * KLineData).

#[global] Instance M_ret : MRet M := λ A a self, Ok (a, self).

#[global] Instance M_bind : MBind M := λ A B k m self,
  match m self with
  | Ok (a, self') => k a self'
  | Err e => Err e
  end.

Definition raise {A} (e : error) : M A := λ _, Err e.

(** A read of the store through the connection. *)
Definition query_conn {A} (f : mongo → A) : M A := λ self, Ok (f (_conn self), self).

(** A write to the store through the connection. *)
Definition write_conn {A} (f : mongo → A * mongo) : M A :=
  λ self, let '(a, db) := f (_conn self) in
          Ok (a, {| _db := _db self; _k_to_c := _k_to_c self; _conn := db;
                    resolutions := resolutions self |}).

(** ** [KLineData] *)

Definition collection_name (x y : string) : string :=
  "kline_" ++ lower x ++ "_" ++ lower y.

(** [KLineData._get_kline_cursor_by_symbol]. A cached handle is an
    object, hence true: [not cursor] holds exactly when the symbol has no
    entry. *)
Definition _get_kline_cursor_by_symbol (symbol : string) : M cursor :=
  λ self,
    match _k_to_c self !! symbol with
    | Some cursor => Ok (cursor, self)
    | None =>
        match split "/" symbol with
        | [x; y] =>
            let collection := collection_name x y in
            let cursor := (_db self, collection) in
            Ok (cursor, {| _db := _db self;
                           _k_to_c := <[symbol := cursor]> (_k_to_c self);
                           _conn := _conn self;
                           resolutions := (resolutions self ++ [(symbol, cursor)])%list |})
        | _ => Err ValueError
        end
    end.

(** [KLineData.create_new_kline]; [now] is the store's clock at the
    insert. *)
Definition create_new_kline (now : Z) (symbol : string)
    (open high low close timestamp : value) : M value :=
  cursor ← _get_kline_cursor_by_symbol symbol;
  let data : doc :=
    <["o" := open]> (<["h" := high]> (<["l" := low]> (<["c" := close]>
      (<["t" := timestamp]> ∅)))) in
  kline_id ← write_conn (insert now data cursor);
  mret kline_id.

(** [KLineData.get_kline_at_ts]. *)
Definition get_kline_at_ts (symbol : string) (ts : option Z) : M (option doc) :=
  cursor ← _get_kline_cursor_by_symbol symbol;
  let spec : query :=
    if truthy ts then [("t", Between None ts)] else [] in
  let _sort := [("t", -1)] in
  result ← query_conn (find_one spec [] _sort cursor);
  mret result.

(** [KLineData.get_latest_kline_by_symbol]. *)
Definition get_latest_kline_by_symbol (symbol : string) : M (option doc) :=
  cursor ← _get_kline_cursor_by_symbol symbol;
  let sort := [("create_time", -1)] in
  result ← query_conn (find_one [] [] sort cursor);
  mret result.

(** [KLineData.get_kline_between_ts]. *)
Definition get_kline_between_ts (symbol : string) (start end_ : Z) : M (list doc) :=
  cursor ← _get_kline_cursor_by_symbol symbol;
  let spec : query := [("t", Between (Some start) (Some end_))] in
  let fields := ["create_time"; "update_time"] in
  let _sort := [("t", 1)] in
  datas ← query_conn (get_list spec fields _sort cursor);
  mret datas.

(** ** [AssetData] *)

(** [self._cursor] of an [AssetData]: database [asset], collection
    [asset]. *)
Definition asset_cursor : cursor := ("asset", "asset").

(** The loop [for key, value in asset.items(): d[key] = value]. *)
Definition with_items (asset : doc) (d : doc) : doc := asset ∪ d.

(** [AssetData.create_new_asset]. *)
Definition create_new_asset (now : Z) (platform account : string) (asset : doc)
    (timestamp : Z) (db : mongo) : value * mongo :=
  let d : doc :=
    <["platform" := VStr platform]> (<["account" := VStr account]>
      (<["timestamp" := VInt timestamp]> ∅)) in
  let d := with_items asset d in
  insert now d asset_cursor db.

(** The keys of the dict built by [for key in delete: d[key] = 1], when
    [delete] is given and not empty. *)
Definition unset_keys (delete : option (list string)) : list string :=
  match delete with
  | Some (key :: keys) => key :: keys
  | _ => []
  end.

(** [AssetData.update_asset]. *)
Definition update_asset (platform account : string) (asset : doc) (timestamp : Z)
    (delete : option (list string)) (db : mongo) : Z * mongo :=
  let spec : query :=
    [("platform", Is (VStr platform)); ("account", Is (VStr account));
     ("timestamp", Is (VInt timestamp))] in
  update spec asset (unset_keys delete) true asset_cursor db.

(** The exception of [del asset["_id"]] on a dict without that key. *)
Inductive key_error : Type := KeyError.

Inductive outcome (A : Type) : Type :=
  | Done (a : A)
  | Raised (e : key_error).
Arguments Done {A} a.
Arguments Raised {A} e.

(** The two lines [if asset: del asset["_id"]] on the result of
    [find_one]: nothing is done to [None] or to an empty dict, which are
    false; otherwise the key is removed, and [del] raises when it is
    not there. *)
Definition del_id (asset : option doc) : outcome (option doc) :=
  match asset with
  | None => Done None
  | Some a =>
      if decide (a = ∅) then Done (Some a)
      else match a !! "_id" with
           | Some _ => Done (Some (delete "_id" a))
           | None => Raised KeyError
           end
  end.

(** [AssetData.get_latest_asset]. *)
Definition get_latest_asset (platform account : string) (db : mongo)
    : outcome (option doc) :=
  let spec : query :=
    [("platform", Is (VStr platform)); ("account", Is (VStr account))] in
  let _sort := [("timestamp", -1)] in
  let fields := ["create_time"; "update_time"] in
  let asset := find_one spec fields _sort asset_cursor db in
  del_id asset.

(** ** [AssetSnapshotData] *)

(** [self._cursor] of an [AssetSnapshotData]: database [asset],
    collection [snapshot]. *)
Definition snapshot_cursor : cursor := ("asset", "snapshot").

(** [AssetSnapshotData.create_new_asset]. *)
Definition create_new_asset_snapshot (now : Z) (platform account : string) (asset : doc)
    (timestamp : Z) (db : mongo) : value * mongo :=
  let d : doc :=
    <["platform" := VStr platform]> (<["account" := VStr account]>
      (<["timestamp" := VInt timestamp]> ∅)) in
  let d := with_items asset d in
  insert now d snapshot_cursor db.

(** The two assignments that open [get_asset_snapshot]: the bounds of
    the query. [now] is what [tools.get_cur_timestamp()] returns. *)
Definition snapshot_bounds (now : Z) (start end_ : option Z) : Z * Z :=
  let end_ := if negb (truthy end_) then now else default 0 end_ in
  let start := if negb (truthy start) then end_ - 60 * 60 * 24 else default 0 start in
  (start, end_).

(** [AssetSnapshotData.get_asset_snapshot]. *)
Definition get_asset_snapshot (now : Z) (platform account : string)
    (start end_ : option Z) (db : mongo) : list doc :=
  let '(start, end_) := snapshot_bounds now start end_ in
  let spec : query :=
    [("platform", Is (VStr platform)); ("account", Is (VStr account));
     ("timestamp", Between (Some start) (Some end_))] in
  let fields := ["platform"; "account"; "update_time"] in
  get_list spec fields [] snapshot_cursor db.

(** [AssetSnapshotData.get_latest_asset_snapshot]. *)
Definition get_latest_asset_snapshot (platform account : string) (db : mongo)
    : outcome (option doc) :=
  let spec : query :=
    [("platform", Is (VStr platform)); ("account", Is (VStr account))] in
  let _sort := [("timestamp", -1)] in
  let asset := find_one spec [] _sort snapshot_cursor db in
  del_id asset.

(** ** [OrderData] *)

(** The attributes of an [Order] object that the layer reads. *)
Record Order : Type := {
  platform : value;
  account : value;
  strategy : value;
  symbol : value;
  order_no : value;
  action : value;
  order_type : value;
  status : value;
  price : value;
  avg_price : value;
  quantity : value;
  remain : value;
  trade_type : value;
  ctime : value;
  utime : value
}.

(** [self._cursor] of an [OrderData]: database [strategy], collection
    [order]. *)
Definition order_cursor : cursor := ("strategy", "order").

(** [OrderData.create_new_order]. *)
Definition create_new_order (now : Z) (order : Order) (db : mongo) : value * mongo :=
  let data : doc :=
    <["p" := platform order]> (<["a" := account order]> (<["s" := strategy order]>
    (<["S" := symbol order]> (<["n" := order_no order]> (<["A" := action order]>
    (<["t" := order_type order]> (<["st" := status order]> (<["pr" := price order]>
    (<["ap" := avg_price order]> (<["q" := quantity order]> (<["r" := remain order]>
    (<["T" := trade_type order]> (<["ct" := ctime order]>
    (<["ut" := utime order]> ∅)))))))))))))) in
  insert now data order_cursor db.

(** [OrderData.get_order_by_no]. *)
Definition get_order_by_no (platform order_no : value) (db : mongo) : option doc :=
  let spec : query := [("p", Is platform); ("n", Is order_no)] in
  find_one spec [] [] order_cursor db.

(** [OrderData.update_order_infos]. *)
Definition update_order_infos (order : Order) (db : mongo) : Z * mongo :=
  let spec : query := [("p", Is (platform order)); ("n", Is (order_no order))] in
  let update_fields : doc :=
    <["s" := status order]> (<["r" := remain order]> ∅) in
  update spec update_fields [] false order_cursor db.

(** [OrderData.get_latest_order]. *)
Definition get_latest_order (platform symbol : value) (db : mongo) : option doc :=
  let spec : query := [("p", Is platform); ("S", Is symbol)] in
  let _sort := [("ut", -1)] in
  find_one spec [] _sort order_cursor db.

(** ** Vocabulary of the properties *)

(** [c in s]. *)
Fixpoint contains (c : ascii) (s : string) : bool :=
  match s with
  | EmptyString => false
  | String c' s' => Ascii.eqb c' c || contains c s'
  end.

(** A symbol of the form [BASE/QUOTE]: one separator, between the base
    code and the quote code. *)
Definition well_formed (symbol : string) : Prop :=
  ∃ base quote, symbol = base ++ "/" ++ quote ∧
    contains "/" base = false ∧ contains "/" quote = false.

(** The instance as a method call leaves it (unchanged when the call
    raises). *)
Definition state_after {A} (m : M A) (self : KLineData) : KLineData :=
  match m self with
  | Ok (_, self') => self'
  | Err _ => self
  end.

(** The calls a client can make on a [KLineData] instance. *)
Inductive call : Type :=
  | CreateNewKline (now : Z) (symbol : string) (open high low close timestamp : value)
  | GetKlineAtTs (symbol : string) (ts : option Z)
  | GetLatestKlineBySymbol (symbol : string)
  | GetKlineBetweenTs (symbol : string) (start end_ : Z)
  | GetKlineCursorBySymbol (symbol : string).

Definition call_symbol (c : call) : string :=
  match c with
  | CreateNewKline _ symbol _ _ _ _ _ => symbol
  | GetKlineAtTs symbol _ => symbol
  | GetLatestKlineBySymbol symbol => symbol
  | GetKlineBetweenTs symbol _ _ => symbol
  | GetKlineCursorBySymbol symbol => symbol
  end.

Definition run_call (c : call) (self : KLineData) : KLineData :=
  match c with
  | CreateNewKline now symbol o h l c t =>
      state_after (create_new_kline now symbol o h l c t) self
  | GetKlineAtTs symbol ts => state_after (get_kline_at_ts symbol ts) self
  | GetLatestKlineBySymbol symbol => state_after (get_latest_kline_by_symbol symbol) self
  | GetKlineBetweenTs symbol start end_ =>
      state_after (get_kline_between_ts symbol start end_) self
  | GetKlineCursorBySymbol symbol => state_after (_get_kline_cursor_by_symbol symbol) self
  end.

(** A history of calls, oldest first. *)
Definition run_calls (cs : list call) (self : KLineData) : KLineData :=
  foldl (λ st c, run_call c st) self cs.

(** The part of an instance the router reads and writes. *)
Definition router (self : KLineData)
    : string * gmap string (string * string) * list (string * (string * string)) :=
  (_db self, _k_to_c self, resolutions self).

(** How many times the handle of [symbol] was resolved. *)
Definition resolved_count (symbol : string) (self : KLineData) : nat :=
  length (filter (λ r, r.1 = symbol) (resolutions self)).

(** What holds of every instance reached from [__init__]: the cache maps
    symbols with two parts to the handle of their collection, and each
    resolution was made once, for a symbol that is cached since. *)
Definition kline_inv (platform : string) (self : KLineData) : Prop :=
  _db self = platform ∧
  (∀ s cur, _k_to_c self !! s = Some cur →
     ∃ x y, split "/" s = [x; y] ∧ cur = (platform, collection_name x y)) ∧
  NoDup (resolutions self).*1 ∧
  (∀ s, s ∈ (resolutions self).*1 → is_Some (_k_to_c self !! s)).

(** A stored candle whose timestamp lies between the two bounds. *)
Definition kline_in_range (start end_ : Z) (d : gmap string value) : Prop :=
  ∃ t, d !! "t" = Some (VInt t) ∧ start ≤ t ≤ end_.

#[global] Instance kline_in_range_dec start end_ d : Decision (kline_in_range start end_ d).
Proof.
  unfold kline_in_range. destruct (d !! "t") as [[t| | |]|].
  - destruct (decide (start ≤ t ≤ end_)) as [H|H].
    + left. by exists t.
    + right. intros (t' & [= <-] & Ht). by apply H.
  - right. by intros (t' & [=] & _).
  - right. by intros (t' & [=] & _).
  - right. by intros (t' & [=] & _).
  - right. by intros (t' & [=] & _).
Defined.

(** A result without the store's bookkeeping fields. *)
Definition strip_bookkeeping (d : gmap string value) : gmap string value :=
  delete "create_time" (delete "update_time" d).

(** An instance for [binance] after one candle of [ETH/BTC] with
    timestamp [5] was stored. *)
Definition kline5 : KLineData :=
  state_after
    (create_new_kline 1 "ETH/BTC" (VStr "1") (VStr "2") (VStr "0.5") (VStr "1.5") (VInt 5))
    (KLineData_init "binance" empty_mongo).

(** The key of an asset document: platform, account and timestamp. *)
Definition asset_key (platform account : string) (timestamp : Z)
    (d : gmap string value) : Prop :=
  d !! "platform" = Some (VStr platform) ∧ d !! "account" = Some (VStr account) ∧
  d !! "timestamp" = Some (VInt timestamp).

Definition key_fields : list string := ["platform"; "account"; "timestamp"].

(** [d'] is [d] with the currencies of [asset] set and those of
    [removed] absent. *)
Definition asset_written (asset : gmap string value) (removed : list string)
    (d d' : gmap string value) : Prop :=
  (∀ k, k ∈ removed → d' !! k = None) ∧
  (∀ k v, k ∉ removed → asset !! k = Some v → d' !! k = Some v) ∧
  (∀ k, k ∉ removed → asset !! k = None → d' !! k = d !! k).

(** A store whose asset document of [binance], [a@x.com] at [1000]
    holds [ETH]. *)
Definition eth_held : mongo :=
  (create_new_asset 1 "binance" "a@x.com" {["ETH" := VBalance "2" "0" "2"]} 1000
     empty_mongo).2.

Definition btc_balance : gmap string value := {["BTC" := VBalance "1" "0" "1"]}.

(** An order as placed, and the same order when filled, the object's
    price having changed since. *)
Definition order_new : Order :=
  {| platform := VStr "binance"; account := VStr "a@x.com"; strategy := VStr "grid";
     symbol := VStr "ETH/BTC"; order_no := VStr "42"; action := VStr "BUY";
     order_type := VStr "LIMIT"; status := VStr "new"; price := VInt 100;
     avg_price := VInt 0; quantity := VInt 5; remain := VInt 5; trade_type := VInt 0;
     ctime := VInt 1000; utime := VInt 1000 |}.

Definition order_filled : Order :=
  {| platform := VStr "binance"; account := VStr "a@x.com"; strategy := VStr "grid";
     symbol := VStr "ETH/BTC"; order_no := VStr "42"; action := VStr "BUY";
     order_type := VStr "LIMIT"; status := VStr "filled"; price := VInt 999;
     avg_price := VInt 100; quantity := VInt 5; remain := VInt 0; trade_type := VInt 0;
     ctime := VInt 1000; utime := VInt 2000 |}.

(** A clock reading in milliseconds, and a store holding one snapshot of
    [binance], [a@x.com] taken an hour (3 600 000 ms) before it. *)
Definition clock : Z := 1700000000000.

Definition hour_old : mongo :=
  (create_new_asset_snapshot (clock - 3600000) "binance" "a@x.com"
     {["BTC" := VBalance "1" "0" "1"]} (clock - 3600000) empty_mongo).2.

(** [s.count(c)]. *)
Fixpoint count_sep (c : ascii) (s : string) : nat :=
  match s with
  | EmptyString => 0
  | String c' s' => (if Ascii.eqb c' c then 1 else 0) + count_sep c s'
  end.

(** The fifteen fields [create_new_order] writes, as a stored document
    holds them. *)
Definition order_fields (o : Order) (d : gmap string value) : Prop :=
  d !! "p" = Some (platform o) ∧ d !! "a" = Some (account o) ∧
  d !! "s" = Some (strategy o) ∧ d !! "S" = Some (symbol o) ∧
  d !! "n" = Some (order_no o) ∧ d !! "A" = Some (action o) ∧
  d !! "t" = Some (order_type o) ∧ d !! "st" = Some (status o) ∧
  d !! "pr" = Some (price o) ∧ d !! "ap" = Some (avg_price o) ∧
  d !! "q" = Some (quantity o) ∧ d !! "r" = Some (remain o) ∧
  d !! "T" = Some (trade_type o) ∧ d !! "ct" = Some (ctime o) ∧
  d !! "ut" = Some (utime o).

(** The natural key of an order document: platform and order number. *)
Definition order_key (platform order_no : value) (d : gmap string value) : Prop :=
  d !! "p" = Some platform ∧ d !! "n" = Some order_no.

(** A document of the given platform and account. *)
Definition owned_by (platform account : string) (d : gmap string value) : Prop :=
  d !! "platform" = Some (VStr platform) ∧ d !! "account" = Some (VStr account).

(** A snapshot of the given platform and account taken between the two
    bounds. *)
Definition snapshot_in_window (platform account : string) (start end_ : Z)
    (d : gmap string value) : Prop :=
  owned_by platform account d ∧ ∃ t, d !! "timestamp" = Some (VInt t) ∧ start ≤ t ≤ end_.

#[global] Instance snapshot_in_window_dec platform account start end_ d :
  Decision (snapshot_in_window platform account start end_ d).
Proof.
  unfold snapshot_in_window, owned_by.
  destruct (decide (d !! "platform" = Some (VStr platform))) as [Hp|Hp];
    [|right; by intros [[? _] _]].
  destruct (decide (d !! "account" = Some (VStr account))) as [Ha|Ha];
    [|right; by intros [[_ ?] _]].
  destruct (d !! "timestamp") as [[t| | |]|];
    try (right; by intros [_ (t' & [=] & _)]).
  destruct (decide (start ≤ t ≤ end_)) as [H|H].
  - left. split; [done|]. by exists t.
  - right. intros [_ (t' & [= <-] & Ht)]. by apply H.
Defined.

(** The fields every stored document gets from the store, besides those
    the caller gave. *)
Definition store_fields : list string := ["_id"; "create_time"; "update_time"].

(** * Properties *)

(** ** Sorting *)

Section sorting.
Implicit Types (x y z : option Z) (a b c d : gmap string value).

Lemma opt_ltb_irrefl x : opt_ltb x x = false.
Proof. destruct x as [n|]; simpl; [apply Z.ltb_irrefl | reflexivity]. Qed.

Lemma opt_ltb_trans x y z :
  opt_ltb x y = true → opt_ltb y z = true → opt_ltb x z = true.
Proof. destruct x, y, z; simpl; try done; lia. Qed.

Lemma opt_ltb_asym x y : opt_ltb x y = true → opt_ltb y x = false.
Proof. destruct x, y; simpl; try done; lia. Qed.

Lemma opt_ltb_tricho x y : opt_ltb x y = false → opt_ltb y x = false → x = y.
Proof. destruct x, y; simpl; try done. intros. f_equal; lia. Qed.

Lemma key_ltb_trans dir x y z :
  key_ltb dir x y = true → key_ltb dir y z = true → key_ltb dir x z = true.
Proof. unfold key_ltb. destruct (0 <=? dir); eauto using opt_ltb_trans. Qed.

Lemma key_ltb_asym dir x y : key_ltb dir x y = true → key_ltb dir y x = false.
Proof. unfold key_ltb. destruct (0 <=? dir); apply opt_ltb_asym. Qed.

Lemma key_ltb_tricho dir x y :
  key_ltb dir x y = false → key_ltb dir y x = false → x = y.
Proof.
  unfold key_ltb. destruct (0 <=? dir); intros; [|symmetry]; by apply opt_ltb_tricho.
Qed.

Lemma doc_leb_total s a b : doc_leb s a b = true ∨ doc_leb s b a = true.
Proof.
  induction s as [|[f dir] s IH]; simpl; [by left|].
  destruct (key_ltb dir (int_field f a) (int_field f b)) eqn:Hab; [by left|].
  destruct (key_ltb dir (int_field f b) (int_field f a)) eqn:Hba; [by right|].
  exact IH.
Qed.

Lemma doc_leb_trans s a b c :
  doc_leb s a b = true → doc_leb s b c = true → doc_leb s a c = true.
Proof.
  induction s as [|[f dir] s IH]; simpl; [done|].
  destruct (key_ltb dir (int_field f a) (int_field f b)) eqn:Hab.
  - intros _. destruct (key_ltb dir (int_field f b) (int_field f c)) eqn:Hbc.
    + by rewrite (key_ltb_trans _ _ _ _ Hab Hbc).
    + destruct (key_ltb dir (int_field f c) (int_field f b)) eqn:Hcb; [done|].
      by rewrite <- (key_ltb_tricho _ _ _ Hbc Hcb), Hab.
  - destruct (key_ltb dir (int_field f b) (int_field f a)) eqn:Hba; [done|].
    rewrite (key_ltb_tricho _ _ _ Hab Hba).
    destruct (key_ltb dir (int_field f b) (int_field f c)); [done|].
    destruct (key_ltb dir (int_field f c) (int_field f b)); [done|].
    exact IH.
Qed.

Lemma insert_sorted_perm s d l : insert_sorted s d l ≡ₚ d :: l.
Proof.
  induction l as [|e l IH]; simpl; [done|].
  destruct (doc_leb s d e); [done|].
  rewrite IH. apply Permutation_swap.
Qed.

Lemma sort_docs_perm s l : sort_docs s l ≡ₚ l.
Proof.
  induction l as [|d l IH]; simpl; [done|].
  by rewrite insert_sorted_perm, IH.
Qed.

Lemma insert_sorted_Sorted s d l :
  Sorted (λ a b, doc_leb s a b = true) l →
  Sorted (λ a b, doc_leb s a b = true) (insert_sorted s d l).
Proof.
  induction 1 as [|e l Hl IH Hhd]; simpl; [by repeat constructor|].
  destruct (doc_leb s d e) eqn:Hde.
  - by repeat constructor.
  - constructor; [exact IH|].
    destruct (doc_leb_total s d e) as [?|Hed]; [congruence|].
    destruct Hhd as [|e' l' He]; simpl; [by constructor|].
    destruct (doc_leb s d e'); by constructor.
Qed.

Lemma sort_docs_Sorted s l : Sorted (λ a b, doc_leb s a b = true) (sort_docs s l).
Proof.
  induction l as [|d l IH]; simpl; [constructor|].
  by apply insert_sorted_Sorted.
Qed.

Lemma sort_docs_StronglySorted s l :
  StronglySorted (λ a b, doc_leb s a b = true) (sort_docs s l).
Proof.
  apply Sorted_StronglySorted; [|apply sort_docs_Sorted].
  intros a b c. apply doc_leb_trans.
Qed.

(** The first document of a sorted collection stands before every
    document of the collection. *)
Lemma head_sort_docs s l d :
  head (sort_docs s l) = Some d →
  d ∈ l ∧ ∀ e, e ∈ l → doc_leb s d e = true.
Proof.
  intros Hd. pose proof (sort_docs_StronglySorted s l) as Hs.
  pose proof (sort_docs_perm s l) as Hp.
  destruct (sort_docs s l) as [|d' l']; simplify_eq/=.
  apply StronglySorted_inv in Hs as [_ Hall]. split.
  - rewrite <- Hp. by left.
  - intros e He. rewrite <- Hp in He. apply elem_of_cons in He as [Heq|He].
    + subst e. by destruct (doc_leb_total s d d).
    + rewrite Forall_forall in Hall. by apply Hall.
Qed.

Lemma head_sort_docs_None s l : head (sort_docs s l) = None → l = [].
Proof.
  intros Hd. pose proof (sort_docs_perm s l) as Hp.
  destruct (sort_docs s l); [|done].
  by apply Permutation_nil_l in Hp.
Qed.
End sorting.

(** ** Symbols *)

Section symbols.
Implicit Types (s x y base quote : string) (sep : ascii).

Lemma split_no_sep sep s : contains sep s = false → split sep s = [s].
Proof.
  induction s as [|c s IH]; simpl; [done|].
  intros [Hc Hs]%orb_false_elim. by rewrite Hc, (IH Hs).
Qed.

Lemma split_sep sep base s :
  contains sep base = false →
  split sep (base ++ String sep s) = base :: split sep s.
Proof.
  induction base as [|c base IH]; simpl.
  - intros _. by rewrite Ascii.eqb_refl.
  - intros [Hc Hs]%orb_false_elim. by rewrite Hc, (IH Hs).
Qed.

Lemma split_well_formed base quote :
  contains "/" base = false → contains "/" quote = false →
  split "/" (base ++ "/" ++ quote) = [base; quote].
Proof.
  intros Hb Hq. change ("/" ++ quote)%string with (String "/" quote).
  by rewrite (split_sep _ _ _ Hb), (split_no_sep _ _ Hq).
Qed.

Lemma split_two_contains sep s x y : split sep s = [x; y] → contains sep s = true.
Proof.
  intros Hs. destruct (contains sep s) eqn:Hc; [done|].
  by rewrite (split_no_sep _ _ Hc) in Hs.
Qed.
End symbols.

(** ** The router *)

Section router.
Implicit Types (self : KLineData) (symbol s platform : string) (c : call).

Lemma cursor_hit symbol self cur :
  _k_to_c self !! symbol = Some cur →
  _get_kline_cursor_by_symbol symbol self = Ok (cur, self).
Proof. intros H. unfold _get_kline_cursor_by_symbol. by rewrite H. Qed.

Lemma cursor_miss symbol self x y :
  _k_to_c self !! symbol = None → split "/" symbol = [x; y] →
  _get_kline_cursor_by_symbol symbol self =
    Ok ((_db self, collection_name x y),
        {| _db := _db self;
           _k_to_c := <[symbol := (_db self, collection_name x y)]> (_k_to_c self);
           _conn := _conn self;
           resolutions :=
             (resolutions self ++ [(symbol, (_db self, collection_name x y))])%list |}).
Proof. intros H Hs. unfold _get_kline_cursor_by_symbol. by rewrite H, Hs. Qed.

Lemma cursor_raises symbol self :
  _k_to_c self !! symbol = None → contains "/" symbol = false →
  _get_kline_cursor_by_symbol symbol self = Err ValueError.
Proof.
  intros H Hc. unfold _get_kline_cursor_by_symbol.
  rewrite H, (split_no_sep _ _ Hc). reflexivity.
Qed.

(** A lookup returns the handle it leaves in the cache, keeps every
    entry the cache had, and leaves the store alone. *)
Lemma cursor_ok symbol self cur self' :
  _get_kline_cursor_by_symbol symbol self = Ok (cur, self') →
  _k_to_c self' !! symbol = Some cur ∧ _conn self' = _conn self ∧
  ∀ s h, _k_to_c self !! s = Some h → _k_to_c self' !! s = Some h.
Proof.
  unfold _get_kline_cursor_by_symbol.
  destruct (_k_to_c self !! symbol) as [h|] eqn:Hc.
  - intros [= <- <-]. done.
  - destruct (split "/" symbol) as [|x [|y [|]]]; try done.
    intros [= <- <-]; simpl. split_and!; [by rewrite lookup_insert_eq|done|].
    intros s h Hs. rewrite lookup_insert_ne; [done|congruence].
Qed.

Lemma cursor_total symbol self :
  well_formed symbol → ∃ cur self', _get_kline_cursor_by_symbol symbol self = Ok (cur, self').
Proof.
  intros (base & quote & -> & Hb & Hq).
  destruct (_k_to_c self !! (base ++ "/" ++ quote)%string) as [h|] eqn:Hc.
  - eauto using cursor_hit.
  - eauto using cursor_miss, split_well_formed.
Qed.

(** Every method starts with the lookup of its symbol and touches the
    router through it only. *)
Lemma run_call_router c self :
  router (run_call c self) =
  router (state_after (_get_kline_cursor_by_symbol (call_symbol c)) self).
Proof.
  destruct c; simpl; unfold state_after;
    unfold create_new_kline, get_kline_at_ts, get_latest_kline_by_symbol,
      get_kline_between_ts, mbind, M_bind, mret, M_ret, query_conn, write_conn;
    by destruct (_get_kline_cursor_by_symbol _ self) as [[cur self1]|].
Qed.

Lemma kline_inv_router platform self self' :
  router self = router self' → kline_inv platform self → kline_inv platform self'.
Proof. unfold router, kline_inv. by intros [= <- <- <-]. Qed.

Lemma kline_inv_init platform db : kline_inv platform (KLineData_init platform db).
Proof.
  unfold kline_inv; simpl. split_and!; [done| |constructor|].
  - intros s cur. by rewrite lookup_empty.
  - intros s Hs. by apply elem_of_nil in Hs.
Qed.

Lemma kline_inv_cursor platform symbol self :
  kline_inv platform self →
  kline_inv platform (state_after (_get_kline_cursor_by_symbol symbol) self).
Proof.
  intros (Hdb & Hcache & Hnd & Hres). unfold state_after, _get_kline_cursor_by_symbol.
  destruct (_k_to_c self !! symbol) as [h|] eqn:Hc; [done|].
  destruct (split "/" symbol) as [|x [|y [|]]] eqn:Hs; try done.
  unfold kline_inv; simpl. split_and!; [done| | |].
  - intros s cur. rewrite lookup_insert. case_decide; [|by apply Hcache].
    intros [= <-]. subst s. exists x, y. by rewrite Hdb.
  - rewrite fmap_app. apply NoDup_app. split_and!; [done| |apply NoDup_singleton].
    intros s Hin Heq%list_elem_of_singleton. simpl in Heq. subst s.
    apply Hres in Hin as [? ?]. congruence.
  - intros s. rewrite fmap_app, elem_of_app, lookup_insert. intros [Hin|Hin].
    + case_decide; [done|by apply Hres].
    + apply list_elem_of_singleton in Hin. simpl in Hin. by rewrite decide_True.
Qed.

Lemma kline_inv_run_call platform c self :
  kline_inv platform self → kline_inv platform (run_call c self).
Proof.
  intros H. eapply kline_inv_router; [symmetry; apply run_call_router|].
  by apply kline_inv_cursor.
Qed.

Lemma kline_inv_run_calls platform cs self :
  kline_inv platform self → kline_inv platform (run_calls cs self).
Proof.
  revert self. induction cs as [|c cs IH]; intros self H; simpl; [done|].
  apply IH. by apply kline_inv_run_call.
Qed.

Lemma cached_run_call c self s h :
  _k_to_c self !! s = Some h → _k_to_c (run_call c self) !! s = Some h.
Proof.
  intros H. pose proof (run_call_router c self) as [= _ -> _].
  unfold state_after.
  destruct (_get_kline_cursor_by_symbol _ self) as [[cur self1]|] eqn:Hg; [|done].
  apply cursor_ok in Hg as (_ & _ & Hkeep). by apply Hkeep.
Qed.

Lemma cached_run_calls cs self s h :
  _k_to_c self !! s = Some h → _k_to_c (run_calls cs self) !! s = Some h.
Proof.
  revert self. induction cs as [|c cs IH]; intros self H; simpl; [done|].
  apply IH. by apply cached_run_call.
Qed.
End router.

Lemma filter_key_NoDup {A} (l : list (string * A)) (s : string) :
  NoDup l.*1 → (length (filter (λ r, r.1 = s) l) ≤ 1)%nat.
Proof.
  induction l as [|[k a] l IH]; simpl; [lia|].
  intros [Hk Hl]%NoDup_cons. rewrite filter_cons. simpl.
  case_decide as Hks; [|by apply IH]. subst k. simpl.
  assert (filter (λ r : string * A, r.1 = s) l = []) as ->; [|simpl; lia].
  apply elem_of_nil_inv. intros [k a'] [Hka Hin]%list_elem_of_filter.
  simpl in Hka. subst k. apply Hk. apply list_elem_of_fmap. by exists (s, a').
Qed.

(** C5. For a well-formed symbol, a lookup returns a handle and leaves it
    in the symbol-to-handle mapping; every later lookup of the symbol, after
    any calls on the instance, returns the same handle and changes
    nothing (a cache hit); and on an instance built by [__init__] the
    handle of a symbol is resolved at most once, whatever calls are made. *)
Theorem partition_resolved_once (symbol : string) :
  well_formed symbol →
  (∀ self, ∃ h self1,
     _get_kline_cursor_by_symbol symbol self = Ok (h, self1) ∧
     _k_to_c self1 !! symbol = Some h ∧
     ∀ cs, _get_kline_cursor_by_symbol symbol (run_calls cs self1)
           = Ok (h, run_calls cs self1)) ∧
  (∀ platform db cs,
     (resolved_count symbol (run_calls cs (KLineData_init platform db)) ≤ 1)%nat).
Proof.
  intros Hwf. split.
  - intros self. destruct (cursor_total symbol self Hwf) as (h & self1 & Hget).
    exists h, self1. pose proof (cursor_ok _ _ _ _ Hget) as (Hc & _ & _).
    split_and!; [done..|].
    intros cs. apply cursor_hit. by apply cached_run_calls.
  - intros platform db cs.
    pose proof (kline_inv_run_calls platform cs _ (kline_inv_init platform db))
      as (_ & _ & Hnd & _).
    by apply filter_key_NoDup.
Qed.

Lemma partition_resolved_once_witness :
  ∃ h self1,
    _get_kline_cursor_by_symbol "ETH/BTC" (KLineData_init "binance" empty_mongo)
      = Ok (h, self1) ∧
    _k_to_c self1 !! "ETH/BTC" = Some h ∧
    _get_kline_cursor_by_symbol "ETH/BTC" (run_calls [GetKlineAtTs "BTC/USD" None] self1)
      = Ok (h, run_calls [GetKlineAtTs "BTC/USD" None] self1).
Proof.
  assert (well_formed "ETH/BTC") as Hwf by (by exists "ETH", "BTC").
  destruct (proj1 (partition_resolved_once "ETH/BTC" Hwf)
              (KLineData_init "binance" empty_mongo)) as (h & self1 & H1 & H2 & H3).
  exists h, self1. split_and!; [exact H1|exact H2|].
  exact (H3 [GetKlineAtTs "BTC/USD" None]).
Defined.

(** C6. On an instance built by [__init__] for [platform], the lookup of
    [BASE/QUOTE] returns the handle of the collection named [kline_],
    the lower-cased base code, an underscore and the lower-cased quote
    code, in the database of the platform. *)
Theorem partition_name_of_symbol (platform : string) (db : mongo) (cs : list call)
    (base quote : string) :
  contains "/" base = false → contains "/" quote = false →
  ∃ self',
    _get_kline_cursor_by_symbol (base ++ "/" ++ quote)
      (run_calls cs (KLineData_init platform db))
    = Ok ((platform, "kline_" ++ lower base ++ "_" ++ lower quote), self').
Proof.
  intros Hb Hq. set (self := run_calls cs _).
  pose proof (kline_inv_run_calls platform cs _ (kline_inv_init platform db))
    as (Hdb & Hcache & _ & _). fold self in Hdb, Hcache.
  pose proof (split_well_formed _ _ Hb Hq) as Hs.
  destruct (_k_to_c self !! (base ++ "/" ++ quote)%string) as [h|] eqn:Hc.
  - exists self. rewrite (cursor_hit _ _ _ Hc).
    apply Hcache in Hc as (x & y & Hxy & ->). rewrite Hs in Hxy. by simplify_eq.
  - eexists. rewrite (cursor_miss _ _ _ _ Hc Hs), Hdb. reflexivity.
Qed.

Lemma partition_name_of_symbol_witness :
  (∃ self', _get_kline_cursor_by_symbol "ETH/BTC" (KLineData_init "binance" empty_mongo)
            = Ok (("binance", "kline_eth_btc"), self')) ∧
  (∃ self', _get_kline_cursor_by_symbol "BTC/USD" (KLineData_init "binance" empty_mongo)
            = Ok (("binance", "kline_btc_usd"), self')).
Proof.
  split.
  - exact (partition_name_of_symbol "binance" empty_mongo [] "ETH" "BTC" eq_refl eq_refl).
  - exact (partition_name_of_symbol "binance" empty_mongo [] "BTC" "USD" eq_refl eq_refl).
Defined.

(** C7. On an instance built by [__init__], whatever calls were made
    since, the lookup of a symbol that is empty or has no separator
    raises, and so does every method called with it; the call leaves the
    instance as it was. *)
Theorem malformed_symbol_raises (platform : string) (db : mongo) (cs : list call)
    (symbol : string) :
  symbol = "" ∨ contains "/" symbol = false →
  let self := run_calls cs (KLineData_init platform db) in
  _get_kline_cursor_by_symbol symbol self = Err ValueError ∧
  (∀ now o h l c t, create_new_kline now symbol o h l c t self = Err ValueError) ∧
  (∀ ts, get_kline_at_ts symbol ts self = Err ValueError) ∧
  get_latest_kline_by_symbol symbol self = Err ValueError ∧
  (∀ start end_, get_kline_between_ts symbol start end_ self = Err ValueError) ∧
  (∀ c, call_symbol c = symbol → run_call c self = self).
Proof.
  intros Hbad self.
  assert (contains "/" symbol = false) as Hc by (by destruct Hbad as [->|]).
  pose proof (kline_inv_run_calls platform cs _ (kline_inv_init platform db))
    as (_ & Hcache & _ & _). fold self in Hcache.
  assert (_get_kline_cursor_by_symbol symbol self = Err ValueError) as Hget.
  { apply cursor_raises; [|done].
    destruct (_k_to_c self !! symbol) as [h|] eqn:Hk; [|done].
    apply Hcache in Hk as (x & y & Hxy & _).
    apply split_two_contains in Hxy. congruence. }
  split_and!; [done|..].
  - intros. unfold create_new_kline, mbind, M_bind. by rewrite Hget.
  - intros. unfold get_kline_at_ts, mbind, M_bind. by rewrite Hget.
  - unfold get_latest_kline_by_symbol, mbind, M_bind. by rewrite Hget.
  - intros. unfold get_kline_between_ts, mbind, M_bind. by rewrite Hget.
  - intros c <-. destruct c; simpl in *; unfold state_after,
      create_new_kline, get_kline_at_ts, get_latest_kline_by_symbol,
      get_kline_between_ts, mbind, M_bind; by rewrite Hget.
Qed.

Lemma malformed_symbol_raises_witness :
  _get_kline_cursor_by_symbol "ETHBTC"
    (run_calls [GetKlineAtTs "ETH/BTC" None] (KLineData_init "binance" empty_mongo))
  = Err ValueError ∧
  get_kline_at_ts "" (Some 5) (KLineData_init "binance" empty_mongo) = Err ValueError.
Proof.
  split.
  - exact (proj1 (malformed_symbol_raises "binance" empty_mongo
                    [GetKlineAtTs "ETH/BTC" None] "ETHBTC" (or_intror eq_refl))).
  - exact (proj1 (proj2 (proj2 (malformed_symbol_raises "binance" empty_mongo
                    [] "" (or_introl eq_refl)))) (Some 5)).
Defined.

(** ** Queries *)

Section queries.
Implicit Types (d e : gmap string value) (l : list (gmap string value)).
Implicit Types (f k : string) (t : Z).

Lemma matches_nil d : matches [] d = true.
Proof. reflexivity. Qed.

Lemma matches_cons k c (q : list (string * cond)) d :
  matches ((k, c) :: q) d = true ↔ match_cond c (d !! k) = true ∧ matches q d = true.
Proof. unfold matches; simpl. apply andb_true_iff. Qed.

Lemma match_cond_is v (o : option value) : match_cond (Is v) o = true ↔ o = Some v.
Proof.
  destruct o as [w|]; simpl; [|done].
  rewrite bool_decide_eq_true. split; congruence.
Qed.

Lemma match_cond_between gte lte (o : option value) :
  match_cond (Between gte lte) o = true ↔
  ∃ t, o = Some (VInt t) ∧ lower_ok gte t = true ∧ upper_ok lte t = true.
Proof.
  destruct o as [[t| | |]|]; simpl; try (split; [done|by intros (? & [=] & _)]).
  rewrite andb_true_iff. split; [by exists t|by intros (? & [= <-] & ?)].
Qed.

Lemma matches_range f a b d :
  matches [(f, Between (Some a) (Some b))] d = true ↔
  ∃ t, d !! f = Some (VInt t) ∧ a ≤ t ≤ b.
Proof.
  rewrite matches_cons, match_cond_between. simpl.
  split.
  - intros [(t & Ht & Hlo & Hhi) _]. exists t. split; [done|]. simpl in *. lia.
  - intros (t & Ht & Hb). split; [|done]. exists t. simpl. split_and!; [done|lia..].
Qed.

Lemma matches_upto f b d :
  matches [(f, Between None (Some b))] d = true ↔
  ∃ t, d !! f = Some (VInt t) ∧ t ≤ b.
Proof.
  rewrite matches_cons, match_cond_between. simpl.
  split.
  - intros [(t & Ht & Hlo & Hhi) _]. exists t. split; [done|]. simpl in *. lia.
  - intros (t & Ht & Hb). split; [|done]. exists t. simpl. split_and!; [done|lia..].
Qed.

Lemma lookup_project (fields : list string) d k :
  k ∉ fields → project fields d !! k = d !! k.
Proof. apply lookup_foldr_delete_not_elem_of. Qed.

Lemma lookup_project_elem (fields : list string) d k :
  k ∈ fields → project fields d !! k = None.
Proof. apply lookup_foldr_delete. Qed.

Lemma get_list_perm spec fields sort cur db :
  get_list spec fields sort cur db ≡ₚ
  project fields <$> filter (λ d, matches spec d = true) (docs_at cur db).
Proof. unfold get_list. by rewrite sort_docs_perm. Qed.

(** Under a one-key sort, a document stands before another exactly
    when its key is not after the other's. *)
Lemma doc_leb_asc f a b ta tb :
  int_field f a = Some ta → int_field f b = Some tb →
  doc_leb [(f, 1)] a b = true → ta ≤ tb.
Proof.
  simpl. intros -> ->. unfold key_ltb; simpl.
  destruct (ta <? tb) eqn:H1; [lia|]. destruct (tb <? ta) eqn:H2; [done|lia].
Qed.

Lemma doc_leb_desc f a b tb :
  int_field f b = Some tb → doc_leb [(f, -1)] a b = true →
  ∃ ta, int_field f a = Some ta ∧ tb ≤ ta.
Proof.
  simpl. intros ->. unfold key_ltb; simpl.
  destruct (int_field f a) as [ta|]; simpl; [|done].
  intros H. exists ta. split; [done|].
  destruct (tb <? ta) eqn:H1; [lia|]. destruct (ta <? tb) eqn:H2; [done|lia].
Qed.

Lemma int_field_Some f d t : int_field f d = Some t ↔ d !! f = Some (VInt t).
Proof.
  unfold int_field. destruct (d !! f) as [[| | |]|]; split; congruence.
Qed.

(** The keys of a list sorted in ascending order on [f], when each
    document has one. *)
Lemma sorted_keys f (P : Z → Prop) l :
  Forall (λ d, ∃ t, int_field f d = Some t ∧ P t) l →
  Sorted (λ a b, doc_leb [(f, 1)] a b = true) l →
  ∃ ts, int_field f <$> l = Some <$> ts ∧ Sorted Z.le ts ∧ Forall P ts.
Proof.
  induction 1 as [|d l (t & Ht & HP) Hl IH]; intros Hs.
  - exists []. by repeat constructor.
  - apply Sorted_inv in Hs as [Hs Hhd].
    destruct (IH Hs) as (ts & Hts & Hsorted & HPs).
    exists (t :: ts). split_and!; [by rewrite !fmap_cons, Ht, Hts| |by constructor].
    constructor; [done|].
    destruct Hhd as [|e l' Hde]; destruct ts as [|t' ts'];
      simplify_eq/=; constructor.
    eauto using doc_leb_asc.
Qed.

(** The most recent document on [f] among those a filter keeps. *)
Lemma find_one_latest spec f cur db :
  match find_one spec [] [(f, -1)] cur db with
  | Some d =>
      d ∈ docs_at cur db ∧ matches spec d = true ∧
      ∀ e t, e ∈ docs_at cur db → matches spec e = true → e !! f = Some (VInt t) →
             ∃ t', d !! f = Some (VInt t') ∧ t ≤ t'
  | None => ∀ e, e ∈ docs_at cur db → matches spec e = false
  end.
Proof.
  unfold find_one, get_list.
  set (kept := filter _ (docs_at cur db)).
  rewrite (list_fmap_ext (project []) id (sort_docs [(f, -1)] kept)), list_fmap_id by done.
  destruct (head (sort_docs [(f, -1)] kept)) as [d|] eqn:Hd.
  - apply head_sort_docs in Hd as [[Hm Hin]%list_elem_of_filter Hmax].
    split_and!; [done..|]. intros e t He Hme Het.
    assert (e ∈ kept) as Hk by (by apply list_elem_of_filter).
    apply Hmax in Hk. apply int_field_Some in Het.
    destruct (doc_leb_desc _ _ _ _ Het Hk) as (t' & Ht' & Hle).
    exists t'. by rewrite <- int_field_Some.
  - apply head_sort_docs_None in Hd. intros e He.
    destruct (matches spec e) eqn:Hm; [|done].
    assert (e ∈ kept) as Hk by (by apply list_elem_of_filter).
    rewrite Hd in Hk. by apply elem_of_nil in Hk.
Qed.
End queries.

(** ** The time-series store *)

Lemma get_kline_at_ts_unfold symbol ts self cur self' :
  _get_kline_cursor_by_symbol symbol self = Ok (cur, self') →
  get_kline_at_ts symbol ts self =
    Ok (find_one (if truthy ts then [("t", Between None ts)] else []) [] [("t", -1)]
          cur (_conn self), self').
Proof.
  intros Hget. unfold get_kline_at_ts, mbind, M_bind, mret, M_ret, query_conn.
  rewrite Hget. by destruct (cursor_ok _ _ _ _ Hget) as (_ & -> & _).
Qed.

Lemma get_kline_between_ts_unfold symbol start end_ self cur self' :
  _get_kline_cursor_by_symbol symbol self = Ok (cur, self') →
  get_kline_between_ts symbol start end_ self =
    Ok (get_list [("t", Between (Some start) (Some end_))] ["create_time"; "update_time"]
          [("t", 1)] cur (_conn self), self').
Proof.
  intros Hget. unfold get_kline_between_ts, mbind, M_bind, mret, M_ret, query_conn.
  rewrite Hget. by destruct (cursor_ok _ _ _ _ Hget) as (_ & -> & _).
Qed.

(** C4. For a well-formed symbol, [get_kline_between_ts] returns the
    stored candles with [start <= t <= end], each without its creation and
    update time, in non-decreasing order of timestamp; it returns the
    empty list when no candle is in range. *)
Theorem kline_range_query (symbol : string) (start end_ : Z) (self : KLineData) :
  well_formed symbol →
  ∃ cur self' datas,
    _get_kline_cursor_by_symbol symbol self = Ok (cur, self') ∧
    get_kline_between_ts symbol start end_ self = Ok (datas, self') ∧
    datas ≡ₚ strip_bookkeeping <$>
               filter (kline_in_range start end_) (docs_at cur (_conn self)) ∧
    (∃ ts, int_field "t" <$> datas = Some <$> ts ∧ Sorted Z.le ts ∧
           Forall (λ t, start ≤ t ≤ end_) ts) ∧
    Forall (λ d, d !! "create_time" = None ∧ d !! "update_time" = None) datas ∧
    (Forall (λ d, ¬ kline_in_range start end_ d) (docs_at cur (_conn self)) → datas = []).
Proof.
  intros Hwf. destruct (cursor_total symbol self Hwf) as (cur & self' & Hget).
  exists cur, self'. eexists. split; [done|].
  split; [by apply get_kline_between_ts_unfold|].
  set (stored := docs_at cur (_conn self)).
  assert (filter (λ d, matches [("t", Between (Some start) (Some end_))] d = true) stored
          = filter (kline_in_range start end_) stored) as Hfilter.
  { apply list_filter_iff. intros d. apply matches_range. }
  split_and!.
  - rewrite get_list_perm. fold stored. by rewrite Hfilter.
  - unfold get_list. fold stored. rewrite Hfilter.
    set (kept := filter _ stored).
    destruct (sorted_keys "t" (λ t, start ≤ t ≤ end_) (sort_docs [("t", 1)] kept))
      as (ts & Hts & Hsorted & Hall).
    + rewrite sort_docs_perm. apply Forall_forall.
      intros d [(t & Ht & Hb) _]%list_elem_of_filter.
      exists t. by rewrite int_field_Some.
    + apply sort_docs_Sorted.
    + exists ts. split_and!; [|done..]. rewrite <- Hts, <- list_fmap_compose.
      apply list_fmap_ext. intros i d _. unfold compose, int_field.
      rewrite lookup_project; [done|].
      rewrite !elem_of_cons, elem_of_nil. by intros [?|[?|[]]].
  - apply Forall_forall. intros d. unfold get_list.
    intros (e & -> & _)%list_elem_of_fmap.
    split; apply lookup_project_elem; repeat constructor.
  - intros Hnone. unfold get_list. fold stored. rewrite Hfilter.
    assert (filter (kline_in_range start end_) stored = []) as ->; [|done].
    apply elem_of_nil_inv. intros d [Hin Hd]%list_elem_of_filter.
    rewrite Forall_forall in Hnone. by apply (Hnone d).
Qed.

Lemma kline_range_query_witness :
  ∃ cur self' datas,
    _get_kline_cursor_by_symbol "ETH/BTC" kline5 = Ok (cur, self') ∧
    get_kline_between_ts "ETH/BTC" 1 9 kline5 = Ok (datas, self') ∧
    datas ≡ₚ strip_bookkeeping <$> filter (kline_in_range 1 9) (docs_at cur (_conn kline5)).
Proof.
  assert (well_formed "ETH/BTC") as Hwf by (by exists "ETH", "BTC").
  destruct (kline_range_query "ETH/BTC" 1 9 kline5 Hwf)
    as (cur & self' & datas & H1 & H2 & H3 & _).
  by exists cur, self', datas.
Defined.

(** C3, amended. For a well-formed symbol and a timestamp [ts] other than
    [0], [get_kline_at_ts] returns a stored candle whose timestamp is the
    greatest of the stored timestamps not above [ts], or nothing when no
    stored timestamp is at or below [ts]; without a timestamp it returns
    a candle of greatest timestamp, or nothing when none is stored. It
    does not raise. *)
Theorem kline_as_of (symbol : string) (self : KLineData) :
  well_formed symbol →
  ∃ cur self',
    _get_kline_cursor_by_symbol symbol self = Ok (cur, self') ∧
    (∀ ts, ts ≠ 0 →
       ∃ r, get_kline_at_ts symbol (Some ts) self = Ok (r, self') ∧
         match r with
         | Some d =>
             d ∈ docs_at cur (_conn self) ∧
             ∃ t, d !! "t" = Some (VInt t) ∧ t ≤ ts ∧
                  ∀ d' t', d' ∈ docs_at cur (_conn self) → d' !! "t" = Some (VInt t') →
                           t' ≤ ts → t' ≤ t
         | None =>
             ∀ d' t', d' ∈ docs_at cur (_conn self) → d' !! "t" = Some (VInt t') →
                      ¬ t' ≤ ts
         end) ∧
    (∃ r, get_kline_at_ts symbol None self = Ok (r, self') ∧
       match r with
       | Some d =>
           d ∈ docs_at cur (_conn self) ∧
           ∀ d' t', d' ∈ docs_at cur (_conn self) → d' !! "t" = Some (VInt t') →
                    ∃ t, d !! "t" = Some (VInt t) ∧ t' ≤ t
       | None => docs_at cur (_conn self) = []
       end).
Proof.
  intros Hwf. destruct (cursor_total symbol self Hwf) as (cur & self' & Hget).
  exists cur, self'. split_and!; [done| |].
  - intros ts Hts. eexists. split; [by apply get_kline_at_ts_unfold|].
    assert (truthy (Some ts) = true) as -> by (simpl; apply negb_true_iff; lia).
    pose proof (find_one_latest [("t", Between None (Some ts))] "t" cur (_conn self)) as H.
    destruct (find_one _ _ _ _ _) as [d|].
    + destruct H as (Hin & (t & Ht & Hle)%matches_upto & Hmax).
      split; [done|]. exists t. split_and!; [done..|].
      intros d' t' Hin' Ht' Hle'.
      destruct (Hmax d' t' Hin') as (t0 & Ht0 & ?); [|done|].
      * apply matches_upto. by exists t'.
      * by simplify_eq.
    + intros d' t' Hin' Ht' Hle'. apply H in Hin'.
      assert (matches [("t", Between None (Some ts))] d' = true); [|congruence].
      apply matches_upto. by exists t'.
  - eexists. split; [by apply get_kline_at_ts_unfold|]. simpl.
    pose proof (find_one_latest [] "t" cur (_conn self)) as H.
    destruct (find_one _ _ _ _ _) as [d|].
    + destruct H as (Hin & _ & Hmax). split; [done|]. intros d' t' Hin' Ht'. eauto.
    + apply elem_of_nil_inv. intros d' Hin'. by apply H in Hin'.
Qed.

Lemma kline_as_of_witness :
  ∃ cur self' r,
    _get_kline_cursor_by_symbol "ETH/BTC" kline5 = Ok (cur, self') ∧
    get_kline_at_ts "ETH/BTC" (Some 7) kline5 = Ok (r, self') ∧
    match r with
    | Some d => ∃ t, d !! "t" = Some (VInt t) ∧ t ≤ 7
    | None => ∀ d' t', d' ∈ docs_at cur (_conn kline5) → d' !! "t" = Some (VInt t') → ¬ t' ≤ 7
    end.
Proof.
  assert (well_formed "ETH/BTC") as Hwf by (by exists "ETH", "BTC").
  destruct (kline_as_of "ETH/BTC" kline5 Hwf) as (cur & self' & H1 & H2 & _).
  destruct (H2 7 ltac:(lia)) as (r & Hr & Hspec).
  exists cur, self', r. split_and!; [exact H1|exact Hr|].
  destruct r as [d|]; [|exact Hspec].
  destruct Hspec as (_ & t & Ht & Hle & _). by exists t.
Defined.

(** The candle [get_kline_at_ts] returns for [ETH/BTC] and timestamp [0]
    when a candle with timestamp [5] is stored. *)
Lemma kline5_at_zero :
  match get_kline_at_ts "ETH/BTC" (Some 0) kline5 with
  | Ok (Some d, _) => d !! "t" = Some (VInt 5)
  | _ => False
  end.
Proof. vm_compute. reflexivity. Qed.

(** C3 as stated fails: with the timestamp [0] the candle returned has
    timestamp [5]. *)
Lemma kline_as_of_zero_counterexample :
  ¬ (∀ symbol ts self d self' t,
       get_kline_at_ts symbol (Some ts) self = Ok (Some d, self') →
       d !! "t" = Some (VInt t) → t ≤ ts).
Proof.
  intros H. pose proof kline5_at_zero as H5.
  destruct (get_kline_at_ts "ETH/BTC" (Some 0) kline5) as [[[d|] self']|] eqn:E; try done.
  specialize (H _ _ _ _ _ 5 E H5). lia.
Qed.

(** C10. [get_kline_at_ts] with the timestamp [0] is [get_kline_at_ts]
    without a timestamp: for a well-formed symbol it returns a candle of
    greatest timestamp among all stored ones, whatever that timestamp. *)
Theorem kline_at_ts_zero (symbol : string) (self : KLineData) :
  get_kline_at_ts symbol (Some 0) self = get_kline_at_ts symbol None self ∧
  (well_formed symbol →
   ∃ cur self' r,
     _get_kline_cursor_by_symbol symbol self = Ok (cur, self') ∧
     get_kline_at_ts symbol (Some 0) self = Ok (r, self') ∧
     match r with
     | Some d =>
         d ∈ docs_at cur (_conn self) ∧
         ∀ d' t', d' ∈ docs_at cur (_conn self) → d' !! "t" = Some (VInt t') →
                  ∃ t, d !! "t" = Some (VInt t) ∧ t' ≤ t
     | None => docs_at cur (_conn self) = []
     end).
Proof.
  split; [reflexivity|].
  intros Hwf. destruct (cursor_total symbol self Hwf) as (cur & self' & Hget).
  exists cur, self'. eexists. split_and!; [done|by apply get_kline_at_ts_unfold|]. simpl.
  pose proof (find_one_latest [] "t" cur (_conn self)) as H.
  destruct (find_one _ _ _ _ _) as [d|].
  - destruct H as (Hin & _ & Hmax). split; [done|]. intros d' t' Hin' Ht'. eauto.
  - apply elem_of_nil_inv. intros d' Hin'. by apply H in Hin'.
Qed.

Lemma kline_at_ts_zero_witness :
  ∃ cur self' d,
    _get_kline_cursor_by_symbol "ETH/BTC" kline5 = Ok (cur, self') ∧
    get_kline_at_ts "ETH/BTC" (Some 0) kline5 = Ok (Some d, self') ∧
    d !! "t" = Some (VInt 5).
Proof.
  assert (well_formed "ETH/BTC") as Hwf by (by exists "ETH", "BTC").
  destruct (proj2 (kline_at_ts_zero "ETH/BTC" kline5) Hwf) as (cur & self' & r & H1 & H2 & _).
  pose proof kline5_at_zero as H5. rewrite H2 in H5.
  destruct r as [d|]; [|destruct H5].
  by exists cur, self', d.
Defined.

(** ** Updates *)

Section updates.
Local Open Scope list_scope.
Implicit Types (d e : gmap string value) (l : list (gmap string value)).
Implicit Types (p : gmap string value → bool) (f : gmap string value → gmap string value).
Implicit Types (db : mongo) (cur : string * string).

Lemma docs_at_set_docs cur l db : docs_at cur (set_docs cur l db) = l.
Proof. unfold docs_at, set_docs; simpl. by rewrite lookup_insert_eq. Qed.

Lemma docs_at_set_docs_ne cur cur' l db :
  cur' ≠ cur → docs_at cur' (set_docs cur l db) = docs_at cur' db.
Proof. intros. unfold docs_at, set_docs; simpl. by rewrite lookup_insert_ne. Qed.

Lemma docs_at_add_doc cur d db : docs_at cur (add_doc cur d db) = docs_at cur db ++ [d].
Proof. unfold docs_at at 1, add_doc; simpl. by rewrite lookup_insert_eq. Qed.

Lemma docs_at_add_doc_ne cur cur' d db :
  cur' ≠ cur → docs_at cur' (add_doc cur d db) = docs_at cur' db.
Proof. intros. unfold docs_at at 1, add_doc; simpl. by rewrite lookup_insert_ne. Qed.

Lemma set_docs_idemp cur l db : set_docs cur l (set_docs cur l db) = set_docs cur l db.
Proof. unfold set_docs; simpl. by rewrite insert_insert_eq. Qed.

Lemma set_docs_add_doc cur d db :
  set_docs cur (docs_at cur db ++ [d]) (add_doc cur d db) = add_doc cur d db.
Proof. unfold set_docs, add_doc; simpl. by rewrite insert_insert_eq. Qed.

Lemma update_first_None p f l :
  update_first p f l = None ↔ Forall (λ e, p e = false) l.
Proof.
  induction l as [|d l IH]; simpl; [by split; [constructor|]|].
  destruct (p d) eqn:Hp.
  - split; [done|]. intros [? _]%Forall_cons. congruence.
  - rewrite fmap_None, IH. split; [by constructor|by intros [_ ?]%Forall_cons].
Qed.

Lemma update_first_Some p f l l' :
  update_first p f l = Some l' ↔
  ∃ l1 d l2, l = l1 ++ d :: l2 ∧ Forall (λ e, p e = false) l1 ∧ p d = true ∧
             l' = l1 ++ f d :: l2.
Proof.
  revert l'. induction l as [|d l IH]; intros l'; simpl.
  - split; [done|]. by intros ([|??] & ? & ? & ? & _).
  - destruct (p d) eqn:Hp.
    + split.
      * intros [= <-]. by exists [], d, l.
      * intros ([|e l1] & d' & l2 & Hl & Hl1 & Hd & ->); simplify_eq/=; [done|].
        apply Forall_cons in Hl1 as [? _]. congruence.
    + rewrite fmap_Some. split.
      * intros (l0 & (l1 & d' & l2 & -> & Hl1 & Hd & ->)%IH & ->).
        exists (d :: l1), d', l2. split_and!; [done|by constructor|done..].
      * intros ([|e l1] & d' & l2 & Hl & Hl1 & Hd & ->); simplify_eq/=; [congruence|].
        apply Forall_cons in Hl1 as [_ Hl1].
        exists (l1 ++ f d' :: l2). split; [|done]. apply IH. by exists l1, d', l2.
Qed.

(** Writing the same update again changes nothing when the written
    document still matches and the write is idempotent. *)
Lemma update_first_again p f l l' :
  (∀ d, p d = true → p (f d) = true ∧ f (f d) = f d) →
  update_first p f l = Some l' → update_first p f l' = Some l'.
Proof.
  intros Hf (l1 & d & l2 & -> & Hl1 & Hd & ->)%update_first_Some.
  apply update_first_Some. exists l1, (f d), l2.
  destruct (Hf d Hd) as [Hp Hff]. by rewrite Hff.
Qed.

Lemma update_first_created p f l d :
  p d = true → f d = d →
  update_first p f l = None → update_first p f (l ++ [d]) = Some (l ++ [d]).
Proof.
  intros Hp Hf Hl%update_first_None. apply update_first_Some.
  exists l, d, []. by rewrite Hf.
Qed.

Lemma lookup_apply_update (set_fields : gmap string value) (unset_fields : list string) d k :
  apply_update set_fields unset_fields d !! k =
  if decide (k ∈ unset_fields) then None else (set_fields ∪ d) !! k.
Proof.
  unfold apply_update. case_decide.
  - by apply lookup_foldr_delete.
  - by apply lookup_foldr_delete_not_elem_of.
Qed.

Lemma apply_update_idemp (set_fields : gmap string value) (unset_fields : list string) d :
  apply_update set_fields unset_fields (apply_update set_fields unset_fields d)
  = apply_update set_fields unset_fields d.
Proof.
  apply map_eq. intros k. rewrite !lookup_apply_update.
  case_decide; [done|].
  destruct (set_fields !! k) as [v|] eqn:Hs.
  - by rewrite !(lookup_union_Some_l _ _ _ _ Hs).
  - rewrite !lookup_union_r by done. rewrite lookup_apply_update.
    rewrite decide_False by done. by rewrite lookup_union_r.
Qed.

Lemma apply_update_written (asset : gmap string value) (removed : list string) d :
  asset_written asset removed d (apply_update asset removed d).
Proof.
  split_and!; intros k.
  - intros Hk. rewrite lookup_apply_update. by rewrite decide_True.
  - intros v Hk Hv. rewrite lookup_apply_update, decide_False by done.
    by apply lookup_union_Some_l.
  - intros Hk Hv. rewrite lookup_apply_update, decide_False by done.
    by apply lookup_union_r.
Qed.

Lemma unset_keys_default (delete : option (list string)) :
  unset_keys delete = default [] delete.
Proof. by destruct delete as [[|]|]. Qed.

Lemma matches_asset_key platform account timestamp d :
  matches [("platform", Is (VStr platform)); ("account", Is (VStr account));
           ("timestamp", Is (VInt timestamp))] d = true
  ↔ asset_key platform account timestamp d.
Proof.
  rewrite !matches_cons, !match_cond_is. unfold asset_key; simpl. tauto.
Qed.

Lemma matches_asset_key_false platform account timestamp d :
  matches [("platform", Is (VStr platform)); ("account", Is (VStr account));
           ("timestamp", Is (VInt timestamp))] d = false
  ↔ ¬ asset_key platform account timestamp d.
Proof. rewrite <- matches_asset_key. by destruct (matches _ d). Qed.
End updates.

(** ** The latest-state store *)

Section assets.
Local Open Scope list_scope.
Variables (platform account : string) (asset : gmap string value) (timestamp : Z).
Variable delete : option (list string).

Let spec : list (string * cond) :=
  [("platform", Is (VStr platform)); ("account", Is (VStr account));
   ("timestamp", Is (VInt timestamp))].

Lemma asset_key_query_doc n :
  asset_key platform account timestamp (<["_id" := VId n]> (query_doc spec)).
Proof. by split_and!. Qed.

Lemma query_doc_other n k :
  k ∉ "_id" :: key_fields → (<["_id" := VId n]> (query_doc spec)) !! k = None.
Proof.
  unfold key_fields. rewrite !not_elem_of_cons. intros (? & ? & ? & ? & _).
  unfold query_doc, spec; simpl. by rewrite !lookup_insert_ne, lookup_empty.
Qed.

(** A write that names no key field keeps the key. *)
Lemma asset_key_apply_update d :
  Forall (λ k, asset !! k = None ∧ k ∉ default [] delete) key_fields →
  asset_key platform account timestamp d →
  asset_key platform account timestamp (apply_update asset (unset_keys delete) d).
Proof.
  rewrite unset_keys_default. unfold key_fields.
  rewrite !Forall_cons. intros ([? ?] & [? ?] & [? ?] & _) (Hp & Ha & Ht).
  unfold asset_key. rewrite !lookup_apply_update, !decide_False, !lookup_union_r by done.
  done.
Qed.
End assets.

(** C9. [update_asset] writes the first stored document whose platform,
    account and timestamp are the given ones: there every removed
    currency is absent, every other given currency has the given value,
    and every other field is as it was; one document is counted. When no
    stored document has that key, a document with the key is created,
    written the same way, and none is counted. Other collections are
    not touched. On the store holding [ETH] for [binance], [a@x.com] at
    [1000], giving [BTC] and removing [ETH] leaves one document, without
    [ETH] and with the given [BTC]. *)
Theorem update_asset_upsert (platform account : string) (asset : gmap string value)
    (timestamp : Z) (delete : option (list string)) (db : mongo) :
  let removed := default [] delete in
  let stored := docs_at asset_cursor db in
  let count := (update_asset platform account asset timestamp delete db).1 in
  let db' := (update_asset platform account asset timestamp delete db).2 in
  (∀ cur, cur ≠ asset_cursor → docs_at cur db' = docs_at cur db) ∧
  ((∃ l1 d l2 d',
      stored = (l1 ++ d :: l2)%list ∧
      Forall (λ e, ¬ asset_key platform account timestamp e) l1 ∧
      asset_key platform account timestamp d ∧
      docs_at asset_cursor db' = (l1 ++ d' :: l2)%list ∧
      asset_written asset removed d d' ∧ count = 1)
   ∨ (Forall (λ e, ¬ asset_key platform account timestamp e) stored ∧
      ∃ d0 d',
        asset_key platform account timestamp d0 ∧
        (∀ k, k ∉ "_id" :: key_fields → d0 !! k = None) ∧
        docs_at asset_cursor db' = (stored ++ [d'])%list ∧
        asset_written asset removed d0 d' ∧ count = 0)) ∧
  (match docs_at asset_cursor eth_held with
   | [d] => d !! "ETH" = Some (VBalance "2" "0" "2")
   | _ => False
   end ∧
   (update_asset "binance" "a@x.com" btc_balance 1000 (Some ["ETH"]) eth_held).1 = 1 ∧
   match docs_at asset_cursor
           (update_asset "binance" "a@x.com" btc_balance 1000 (Some ["ETH"]) eth_held).2 with
   | [d] => d !! "ETH" = None ∧ d !! "BTC" = Some (VBalance "1" "0" "1") ∧
            asset_key "binance" "a@x.com" 1000 d
   | _ => False
   end).
Proof.
  intros removed stored count db'. split; [|split]; [| |by vm_compute].
  - intros cur Hcur. unfold db', update_asset, update.
    destruct (update_first _ _ _); simpl;
      [by apply docs_at_set_docs_ne|by apply docs_at_add_doc_ne].
  - unfold count, db', update_asset, update. fold stored.
    rewrite unset_keys_default. fold removed.
    destruct (update_first _ _ stored) as [l'|] eqn:Hup; simpl.
    + left. apply update_first_Some in Hup as (l1 & d & l2 & Hst & Hl1 & Hd & ->).
      exists l1, d, l2, (apply_update asset removed d).
      split_and!; [done| |by apply matches_asset_key|apply docs_at_set_docs
                  |apply apply_update_written|done].
      eapply Forall_impl; [exact Hl1|]. intros e. apply matches_asset_key_false.
    + right. apply update_first_None in Hup. split.
      * eapply Forall_impl; [exact Hup|]. intros e. apply matches_asset_key_false.
      * eexists _, _.
        split_and!; [apply asset_key_query_doc|apply query_doc_other
                    |apply docs_at_add_doc|apply apply_update_written|done].
Qed.

(** C8. Calling [update_asset] a second time with the same arguments
    leaves the store as the first call left it. The balances and the
    removal list name currencies: none of them is [platform], [account]
    or [timestamp], the fields the document is located by. *)
Theorem update_asset_idempotent (platform account : string) (asset : gmap string value)
    (timestamp : Z) (delete : option (list string)) (db : mongo) :
  Forall (λ k, asset !! k = None ∧ k ∉ default [] delete) key_fields →
  (update_asset platform account asset timestamp delete
     (update_asset platform account asset timestamp delete db).2).2
  = (update_asset platform account asset timestamp delete db).2.
Proof.
  intros Hkeys. unfold update_asset, update.
  set (spec := [("platform", _); _; _]).
  set (p := λ d : gmap string value, matches spec d).
  set (f := apply_update asset (unset_keys delete)).
  assert (∀ d, p d = true → p (f d) = true ∧ f (f d) = f d) as Hf.
  { intros d Hd. split; [|apply apply_update_idemp].
    apply matches_asset_key, asset_key_apply_update; [done|]. by apply matches_asset_key. }
  destruct (update_first p f (docs_at asset_cursor db)) as [l'|] eqn:Hup; simpl.
  - rewrite docs_at_set_docs, (update_first_again _ _ _ _ Hf Hup). simpl.
    apply set_docs_idemp.
  - rewrite docs_at_add_doc.
    set (created := f (<["_id" := VId (next_id db)]> (query_doc spec))).
    assert (p created = true) as Hp.
    { apply matches_asset_key, asset_key_apply_update; [done|]. apply asset_key_query_doc. }
    rewrite (update_first_created p f _ created Hp); [|apply apply_update_idemp|done].
    simpl. apply set_docs_add_doc.
Qed.

Lemma update_asset_idempotent_witness :
  (update_asset "binance" "a@x.com" btc_balance 1000 (Some ["ETH"])
     (update_asset "binance" "a@x.com" btc_balance 1000 (Some ["ETH"]) eth_held).2).2
  = (update_asset "binance" "a@x.com" btc_balance 1000 (Some ["ETH"]) eth_held).2.
Proof.
  apply (update_asset_idempotent "binance" "a@x.com" btc_balance 1000 (Some ["ETH"])).
  unfold key_fields. repeat constructor; try reflexivity;
    simpl; rewrite list_elem_of_singleton; discriminate.
Defined.

(** ** The snapshot history *)

(** C2, as the code has it. With both bounds omitted the window of
    [get_asset_snapshot] is [now - 86400, now], 86 400 being
    [60 * 60 * 24]: every snapshot returned was taken in that window, and
    a snapshot taken one hour (3 600 000 ms) before [now] is not
    returned, though it lies within [now - 86 400 000, now]. *)
Theorem snapshot_default_window (now : Z) (platform account : string) (db : mongo) :
  snapshot_bounds now None None = (now - 86400, now) ∧
  Forall (λ d, ∃ e t, e ∈ docs_at snapshot_cursor db ∧
                      d = project ["platform"; "account"; "update_time"] e ∧
                      e !! "timestamp" = Some (VInt t) ∧ now - 86400 ≤ t ≤ now)
    (get_asset_snapshot now platform account None None db) ∧
  (match docs_at snapshot_cursor hour_old with
   | [e] => e !! "timestamp" = Some (VInt (clock - 3600000)) ∧
            e !! "platform" = Some (VStr "binance") ∧
            e !! "account" = Some (VStr "a@x.com")
   | _ => False
   end ∧
   clock - 86400000 ≤ clock - 3600000 ≤ clock ∧
   get_asset_snapshot clock "binance" "a@x.com" None None hour_old = []).
Proof.
  split; [reflexivity|]. split; [|by vm_compute].
  apply Forall_forall. intros d. unfold get_asset_snapshot.
  change (snapshot_bounds now None None) with (now - 60 * 60 * 24, now). cbv beta iota.
  rewrite get_list_perm.
  intros (e & -> & [Hm He]%list_elem_of_filter)%list_elem_of_fmap.
  apply matches_cons in Hm as [_ Hm]. apply matches_cons in Hm as [_ Hm].
  apply matches_range in Hm as (t & Ht & Hb).
  exists e, t. split_and!; [done|done|done|lia..].
Qed.

(** ** The lifecycle store *)

(** The document [create_new_order] stores, field by field. *)
Lemma create_new_order_doc (now : Z) (o : Order) (db : mongo) :
  ∃ d, docs_at order_cursor (create_new_order now o db).2
       = (docs_at order_cursor db ++ [d])%list ∧
    d !! "p" = Some (platform o) ∧ d !! "n" = Some (order_no o) ∧
    d !! "s" = Some (strategy o) ∧ d !! "st" = Some (status o) ∧
    d !! "r" = Some (remain o) ∧ d !! "pr" = Some (price o) ∧
    d !! "q" = Some (quantity o) ∧ d !! "ct" = Some (ctime o) ∧
    d !! "ut" = Some (utime o).
Proof.
  unfold create_new_order, insert; simpl. eexists. split; [apply docs_at_add_doc|].
  by split_and!.
Qed.

(** C1, as the code has it. [update_order_infos] writes the fields [s]
    and [r] of the document found by platform and order number. Since
    [create_new_order] stores the strategy under [s] and the status
    under [st], the stored strategy becomes the new status and the
    stored status stays what it was; the remaining quantity is updated,
    and price, quantity and the times are kept. *)
Theorem update_order_infos_writes_strategy (now : Z) (o o' : Order) (db : mongo) :
  docs_at order_cursor db = [] →
  platform o' = platform o → order_no o' = order_no o →
  ∃ d, docs_at order_cursor (update_order_infos o' (create_new_order now o db).2).2 = [d] ∧
    d !! "s" = Some (status o') ∧ d !! "st" = Some (status o) ∧
    d !! "r" = Some (remain o') ∧ d !! "pr" = Some (price o) ∧
    d !! "q" = Some (quantity o) ∧ d !! "ct" = Some (ctime o) ∧
    d !! "ut" = Some (utime o).
Proof.
  intros Hdb Hp Hn.
  destruct (create_new_order_doc now o db)
    as (d & Hd & Hdp & Hdn & Hds & Hdst & Hdr & Hdpr & Hdq & Hdct & Hdut).
  rewrite Hdb, app_nil_l in Hd.
  unfold update_order_infos, update. rewrite Hd, Hp, Hn. cbn [update_first].
  assert (matches [("p", Is (platform o)); ("n", Is (order_no o))] d = true) as ->.
  { rewrite !matches_cons, !match_cond_is. by split_and!. }
  cbn [snd]. eexists. split; [apply docs_at_set_docs|].
  rewrite !lookup_apply_update; simpl.
  split_and!; first [by apply lookup_union_Some_l | by rewrite lookup_union_r].
Qed.

Lemma update_order_infos_writes_strategy_witness :
  ∃ d, docs_at order_cursor
         (update_order_infos order_filled (create_new_order 1000 order_new empty_mongo).2).2
       = [d] ∧
    d !! "s" = Some (VStr "filled") ∧ d !! "st" = Some (VStr "new") ∧
    d !! "r" = Some (VInt 0) ∧ d !! "pr" = Some (VInt 100).
Proof.
  destruct (update_order_infos_writes_strategy 1000 order_new order_filled empty_mongo
              eq_refl eq_refl eq_refl) as (d & H1 & H2 & H3 & H4 & H5 & _).
  by exists d.
Defined.

(** * Further properties *)

(** ** Which symbols the router accepts, and which share a partition *)

Section partitions.
Implicit Types (s a b c x y base quote platform symbol : string) (sep : ascii).
Implicit Types (self : KLineData).

Lemma length_split sep s : length (split sep s) = S (count_sep sep s).
Proof.
  induction s as [|ch s IH]; simpl; [done|].
  destruct (Ascii.eqb ch sep); simpl; [by rewrite IH|].
  destruct (split sep s) as [|part parts]; simpl in *; [done|exact IH].
Qed.

Lemma split_two_iff sep s : (∃ x y, split sep s = [x; y]) ↔ count_sep sep s = 1%nat.
Proof.
  pose proof (length_split sep s) as Hlen. split.
  - intros (x & y & Hs). rewrite Hs in Hlen. simpl in Hlen. lia.
  - intros Hc. rewrite Hc in Hlen.
    destruct (split sep s) as [|x [|y [|z l]]]; simplify_eq/=. eauto.
Qed.

Lemma contains_app sep a b : contains sep (a ++ b) = contains sep a || contains sep b.
Proof. induction a as [|ch a IH]; simpl; [done|]. by rewrite IH, orb_assoc. Qed.

Lemma lower_app a b : lower (a ++ b) = (lower a ++ lower b)%string.
Proof. induction a as [|ch a IH]; simpl; [done|]. by rewrite IH. Qed.

Lemma string_app_cons ch a b : (String ch a ++ b)%string = String ch (a ++ b).
Proof. reflexivity. Qed.

Lemma string_app_assoc a b c : ((a ++ b) ++ c = a ++ (b ++ c))%string.
Proof. induction a as [|ch a IH]; [done|]. by rewrite !string_app_cons, IH. Qed.

Lemma string_app_length a b : String.length (a ++ b) = (String.length a + String.length b)%nat.
Proof. induction a as [|ch a IH]; [done|]. rewrite string_app_cons. simpl. by rewrite IH. Qed.

(** On an instance that satisfies the invariant, the lookup of a symbol
    with two parts returns the handle of their collection. *)
Lemma cursor_reached platform symbol x y self :
  kline_inv platform self → split "/" symbol = [x; y] →
  ∃ self', _get_kline_cursor_by_symbol symbol self
           = Ok ((platform, collection_name x y), self') ∧
           kline_inv platform self'.
Proof.
  intros Hinv Hs. pose proof (kline_inv_cursor platform symbol self Hinv) as Hinv'.
  unfold state_after in Hinv'. destruct Hinv as (Hdb & Hcache & _ & _).
  destruct (_k_to_c self !! symbol) as [h|] eqn:Hc.
  - rewrite (cursor_hit _ _ _ Hc) in Hinv' |- *. exists self. split; [|done].
    apply Hcache in Hc as (x' & y' & Hxy & ->). rewrite Hs in Hxy. by simplify_eq.
  - rewrite (cursor_miss _ _ _ _ Hc Hs) in Hinv' |- *. rewrite Hdb in Hinv' |- *.
    eexists. split; [reflexivity|exact Hinv'].
Qed.
End partitions.

(** X1. On an instance built by [__init__], whatever calls were made
    since, the lookup of a symbol returns a handle when the symbol has
    exactly one separator and raises otherwise: without a separator the
    unpacking has too few values, with two or more it has too many. *)
Theorem cursor_lookup_needs_one_separator (platform : string) (db : mongo)
    (cs : list call) (symbol : string) :
  let self := run_calls cs (KLineData_init platform db) in
  if decide (count_sep "/" symbol = 1%nat)
  then ∃ cur self', _get_kline_cursor_by_symbol symbol self = Ok (cur, self')
  else _get_kline_cursor_by_symbol symbol self = Err ValueError.
Proof.
  intros self.
  pose proof (kline_inv_run_calls platform cs _ (kline_inv_init platform db)) as Hinv.
  fold self in Hinv. case_decide as Hc.
  - apply split_two_iff in Hc as (x & y & Hs).
    destruct (cursor_reached _ _ _ _ _ Hinv Hs) as (self' & Hget & _). eauto.
  - destruct Hinv as (_ & Hcache & _ & _).
    unfold _get_kline_cursor_by_symbol.
    destruct (_k_to_c self !! symbol) as [h|] eqn:Hk.
    + apply Hcache in Hk as (x & y & Hxy & _). destruct Hc. apply split_two_iff. eauto.
    + destruct (split "/" symbol) as [|x [|y [|z l]]] eqn:Hs; try done.
      destruct Hc. apply split_two_iff. eauto.
Qed.

(** X2. Two symbols whose base codes and whose quote codes differ in
    letter case only are routed to the same handle: candles stored under
    [ETH/BTC] and under [eth/btc] share one collection. *)
Theorem symbols_differing_in_case_share_partition (platform : string) (db : mongo)
    (cs : list call) (base quote base' quote' : string) :
  contains "/" base = false → contains "/" quote = false →
  contains "/" base' = false → contains "/" quote' = false →
  lower base = lower base' → lower quote = lower quote' →
  ∃ cur self1 self2,
    _get_kline_cursor_by_symbol (base ++ "/" ++ quote)
      (run_calls cs (KLineData_init platform db)) = Ok (cur, self1) ∧
    _get_kline_cursor_by_symbol (base' ++ "/" ++ quote') self1 = Ok (cur, self2).
Proof.
  intros Hb Hq Hb' Hq' Hlb Hlq.
  pose proof (kline_inv_run_calls platform cs _ (kline_inv_init platform db)) as Hinv.
  destruct (cursor_reached _ _ _ _ _ Hinv (split_well_formed _ _ Hb Hq))
    as (self1 & Hget1 & Hinv1).
  destruct (cursor_reached _ _ _ _ _ Hinv1 (split_well_formed _ _ Hb' Hq'))
    as (self2 & Hget2 & _).
  exists (platform, collection_name base quote), self1, self2. split; [done|].
  rewrite Hget2. unfold collection_name. by rewrite Hlb, Hlq.
Qed.

Lemma symbols_differing_in_case_share_partition_witness :
  ∃ cur self1 self2,
    _get_kline_cursor_by_symbol "ETH/BTC" (KLineData_init "binance" empty_mongo)
      = Ok (cur, self1) ∧
    _get_kline_cursor_by_symbol "eth/Btc" self1 = Ok (cur, self2).
Proof.
  exact (symbols_differing_in_case_share_partition "binance" empty_mongo []
           "ETH" "BTC" "eth" "Btc" eq_refl eq_refl eq_refl eq_refl eq_refl eq_refl).
Defined.

(** X3. The collection name joins the two codes with an underscore, so
    an underscore in a code moves freely across the separator: the
    distinct symbols [a_b/c] and [a/b_c] are routed to the same
    handle. *)
Theorem underscore_symbols_collide (platform : string) (db : mongo) (cs : list call)
    (a b c : string) :
  contains "/" a = false → contains "/" b = false → contains "/" c = false →
  (a ++ "_" ++ b) ++ "/" ++ c ≠ a ++ "/" ++ (b ++ "_" ++ c) ∧
  ∃ cur self1 self2,
    _get_kline_cursor_by_symbol ((a ++ "_" ++ b) ++ "/" ++ c)
      (run_calls cs (KLineData_init platform db)) = Ok (cur, self1) ∧
    _get_kline_cursor_by_symbol (a ++ "/" ++ (b ++ "_" ++ c)) self1 = Ok (cur, self2).
Proof.
  intros Ha Hb Hc.
  assert (contains "/" (a ++ "_" ++ b) = false) as Hab.
  { rewrite !contains_app, Ha, Hb. reflexivity. }
  assert (contains "/" (b ++ "_" ++ c) = false) as Hbc.
  { rewrite !contains_app, Hb, Hc. reflexivity. }
  split.
  - intros Heq. apply (f_equal (split "/")) in Heq.
    rewrite (split_well_formed _ _ Hab Hc), (split_well_formed _ _ Ha Hbc) in Heq.
    injection Heq as Heq _. apply (f_equal String.length) in Heq.
    rewrite !string_app_length in Heq. simpl in Heq. lia.
  - pose proof (kline_inv_run_calls platform cs _ (kline_inv_init platform db)) as Hinv.
    destruct (cursor_reached _ _ _ _ _ Hinv (split_well_formed _ _ Hab Hc))
      as (self1 & Hget1 & Hinv1).
    destruct (cursor_reached _ _ _ _ _ Hinv1 (split_well_formed _ _ Ha Hbc))
      as (self2 & Hget2 & _).
    exists (platform, collection_name (a ++ "_" ++ b) c), self1, self2. split; [done|].
    rewrite Hget2. unfold collection_name.
    rewrite !lower_app, !string_app_assoc. reflexivity.
Qed.

Lemma underscore_symbols_collide_witness :
  "BTC_USD/T" ≠ "BTC/USD_T" ∧
  ∃ cur self1 self2,
    _get_kline_cursor_by_symbol "BTC_USD/T" (KLineData_init "binance" empty_mongo)
      = Ok (cur, self1) ∧
    _get_kline_cursor_by_symbol "BTC/USD_T" self1 = Ok (cur, self2).
Proof.
  exact (underscore_symbols_collide "binance" empty_mongo [] "BTC" "USD" "T"
           eq_refl eq_refl eq_refl).
Defined.

(** ** Storing candles and reading them back *)

Section candles.
Local Open Scope list_scope.
Implicit Types (d e n : gmap string value) (self : KLineData) (symbol : string).

Lemma head_fmap {A B} (g : A → B) (l : list A) : head (g <$> l) = g <$> head l.
Proof. by destruct l. Qed.

Lemma find_one_project spec fields sort cur db :
  find_one spec fields sort cur db = project fields <$> find_one spec [] sort cur db.
Proof.
  unfold find_one, get_list. rewrite !head_fmap.
  destruct (head _) as [d|]; [|done]. reflexivity.
Qed.

(** A document added with a key above those of the stored matches is
    the one a descending one-key sort puts first. *)
Lemma find_one_newest spec f cur db n v :
  matches spec n = true → int_field f n = Some v →
  Forall (λ e, matches spec e = true → ∀ t, e !! f = Some (VInt t) → t < v)
    (docs_at cur db) →
  find_one spec [] [(f, -1)] cur (add_doc cur n db) = Some n.
Proof.
  intros Hn Hv Hold. apply int_field_Some in Hv.
  pose proof (find_one_latest spec f cur (add_doc cur n db)) as H.
  rewrite docs_at_add_doc in H.
  assert (n ∈ docs_at cur db ++ [n]) as Hin by (apply elem_of_app; right; by left).
  destruct (find_one _ _ _ _ _) as [d|].
  - destruct H as (Hd & Hm & Hmax).
    destruct (Hmax n v Hin Hn Hv) as (t' & Ht' & Hle).
    apply elem_of_app in Hd as [Hd|Hd%list_elem_of_singleton]; [|by subst].
    rewrite Forall_forall in Hold. specialize (Hold d Hd Hm t' Ht'). lia.
  - specialize (H n Hin). congruence.
Qed.

(** What [create_new_kline] does once the symbol has a handle: the
    candle goes to the end of the collection of the handle, with the
    identifier returned and the clock as creation and update time. *)
Lemma create_new_kline_ok now symbol o h l c t self cur self1 :
  _get_kline_cursor_by_symbol symbol self = Ok (cur, self1) →
  ∃ self2 d,
    create_new_kline now symbol o h l c t self = Ok (VId (next_id (_conn self)), self2) ∧
    _k_to_c self2 !! symbol = Some cur ∧
    _conn self2 = add_doc cur d (_conn self) ∧
    d !! "_id" = Some (VId (next_id (_conn self))) ∧
    d !! "o" = Some o ∧ d !! "h" = Some h ∧ d !! "l" = Some l ∧ d !! "c" = Some c ∧
    d !! "t" = Some t ∧
    d !! "create_time" = Some (VInt now) ∧ d !! "update_time" = Some (VInt now).
Proof.
  intros Hget. destruct (cursor_ok _ _ _ _ Hget) as (Hc & Hconn & _).
  unfold create_new_kline, mbind, M_bind, mret, M_ret, write_conn, insert.
  rewrite Hget, Hconn. simpl. eexists _, _. split; [reflexivity|]. simpl.
  by split_and!.
Qed.
End candles.

(** X4. A candle stored by [create_new_kline] under a well-formed symbol
    is returned by [get_kline_between_ts] for the same symbol and any
    bounds around its timestamp, with the identifier the store gave it
    and the five values it was stored with. *)
Theorem stored_kline_is_in_range (now : Z) (symbol : string) (o h l c : value)
    (t start end_ : Z) (self : KLineData) :
  well_formed symbol → start ≤ t ≤ end_ →
  ∃ kline_id self1 datas self2 d,
    create_new_kline now symbol o h l c (VInt t) self = Ok (kline_id, self1) ∧
    get_kline_between_ts symbol start end_ self1 = Ok (datas, self2) ∧
    d ∈ datas ∧ d !! "_id" = Some kline_id ∧
    d !! "o" = Some o ∧ d !! "h" = Some h ∧ d !! "l" = Some l ∧ d !! "c" = Some c ∧
    d !! "t" = Some (VInt t).
Proof.
  intros Hwf Ht. destruct (cursor_total symbol self Hwf) as (cur & self0 & Hget).
  destruct (create_new_kline_ok now symbol o h l c (VInt t) _ _ _ Hget)
    as (self1 & d & Hcreate & Hcache & Hconn & Hid & Ho & Hh & Hl & Hc & Hdt & _).
  exists (VId (next_id (_conn self))), self1. eexists _, self1, (strip_bookkeeping d).
  split; [done|].
  split; [apply get_kline_between_ts_unfold; by apply cursor_hit|].
  split.
  - rewrite get_list_perm, Hconn, docs_at_add_doc.
    apply list_elem_of_fmap. exists d. split; [done|].
    apply list_elem_of_filter. split; [|apply elem_of_app; right; by left].
    apply matches_range. by exists t.
  - unfold strip_bookkeeping. by rewrite !lookup_delete_ne.
Qed.

Lemma stored_kline_is_in_range_witness :
  ∃ kline_id self1 datas self2 d,
    create_new_kline 9 "ETH/BTC" (VStr "1") (VStr "2") (VStr "0.5") (VStr "1.5") (VInt 7)
      kline5 = Ok (kline_id, self1) ∧
    get_kline_between_ts "ETH/BTC" 6 8 self1 = Ok (datas, self2) ∧
    d ∈ datas ∧ d !! "_id" = Some kline_id ∧ d !! "t" = Some (VInt 7).
Proof.
  assert (well_formed "ETH/BTC") as Hwf by (by exists "ETH", "BTC").
  destruct (stored_kline_is_in_range 9 "ETH/BTC" (VStr "1") (VStr "2") (VStr "0.5")
              (VStr "1.5") 7 6 8 kline5 Hwf ltac:(lia))
    as (k & s1 & ds & s2 & d & H1 & H2 & H3 & H4 & _ & _ & _ & _ & H5).
  by exists k, s1, ds, s2, d.
Defined.

(** X5. [create_new_kline] under a well-formed symbol adds one document
    at the end of the collection of the symbol's handle and leaves every
    other collection of the store as it was. *)
Theorem create_new_kline_touches_one_partition (now : Z) (symbol : string)
    (o h l c t : value) (self : KLineData) :
  well_formed symbol →
  ∃ cur self0 kline_id self1 d,
    _get_kline_cursor_by_symbol symbol self = Ok (cur, self0) ∧
    create_new_kline now symbol o h l c t self = Ok (kline_id, self1) ∧
    docs_at cur (_conn self1) = (docs_at cur (_conn self) ++ [d])%list ∧
    d !! "_id" = Some kline_id ∧ d !! "t" = Some t ∧
    ∀ cur', cur' ≠ cur → docs_at cur' (_conn self1) = docs_at cur' (_conn self).
Proof.
  intros Hwf. destruct (cursor_total symbol self Hwf) as (cur & self0 & Hget).
  destruct (create_new_kline_ok now symbol o h l c t _ _ _ Hget)
    as (self1 & d & Hcreate & _ & Hconn & Hid & _ & _ & _ & _ & Hdt & _).
  exists cur, self0, (VId (next_id (_conn self))), self1, d.
  split_and!; [done|done| | done | done |].
  - rewrite Hconn. apply docs_at_add_doc.
  - intros cur' Hne. rewrite Hconn. by apply docs_at_add_doc_ne.
Qed.

Lemma create_new_kline_touches_one_partition_witness :
  ∃ cur self0 kline_id self1 d,
    _get_kline_cursor_by_symbol "BTC/USD" kline5 = Ok (cur, self0) ∧
    create_new_kline 9 "BTC/USD" (VStr "1") (VStr "2") (VStr "0.5") (VStr "1.5") (VInt 7)
      kline5 = Ok (kline_id, self1) ∧
    docs_at cur (_conn self1) = (docs_at cur (_conn kline5) ++ [d])%list ∧
    docs_at ("binance", "kline_eth_btc") (_conn self1)
    = docs_at ("binance", "kline_eth_btc") (_conn kline5).
Proof.
  assert (well_formed "BTC/USD") as Hwf by (by exists "BTC", "USD").
  destruct (create_new_kline_touches_one_partition 9 "BTC/USD" (VStr "1") (VStr "2")
              (VStr "0.5") (VStr "1.5") (VInt 7) kline5 Hwf)
    as (cur & s0 & k & s1 & d & H1 & H2 & H3 & _ & _ & H4).
  exists cur, s0, k, s1, d. split_and!; [exact H1|exact H2|exact H3|].
  apply H4. intros Heq. rewrite <- Heq in H1. vm_compute in H1. discriminate H1.
Defined.

(** X6. When the clock is past every creation time in the store, the
    candle just stored is the one [get_latest_kline_by_symbol] returns,
    whatever its timestamp: the latest candle is the latest by insertion,
    not by time of the candle. *)
Theorem latest_kline_is_last_stored (now : Z) (symbol : string) (o h l c t : value)
    (self : KLineData) :
  well_formed symbol →
  (∀ cur e c', e ∈ docs_at cur (_conn self) → e !! "create_time" = Some (VInt c') →
               c' < now) →
  ∃ kline_id self1 d self2,
    create_new_kline now symbol o h l c t self = Ok (kline_id, self1) ∧
    get_latest_kline_by_symbol symbol self1 = Ok (Some d, self2) ∧
    d !! "_id" = Some kline_id ∧ d !! "t" = Some t ∧ d !! "c" = Some c.
Proof.
  intros Hwf Hclock. destruct (cursor_total symbol self Hwf) as (cur & self0 & Hget).
  destruct (create_new_kline_ok now symbol o h l c t _ _ _ Hget)
    as (self1 & d & Hcreate & Hcache & Hconn & Hid & _ & _ & _ & Hc & Hdt & Hct & _).
  exists (VId (next_id (_conn self))), self1, d, self1. split; [done|].
  split; [|done].
  unfold get_latest_kline_by_symbol, mbind, M_bind, mret, M_ret, query_conn.
  rewrite (cursor_hit _ _ _ Hcache), Hconn.
  rewrite (find_one_newest [] "create_time" cur (_conn self) d now); [done|done| |].
  - by apply int_field_Some.
  - apply Forall_forall. intros e He _ c' Hc'. by apply (Hclock cur e).
Qed.

Lemma latest_kline_is_last_stored_witness :
  ∃ kline_id self1 d self2,
    create_new_kline 9 "ETH/BTC" (VStr "1") (VStr "2") (VStr "0.5") (VStr "1.5") (VInt 3)
      kline5 = Ok (kline_id, self1) ∧
    get_latest_kline_by_symbol "ETH/BTC" self1 = Ok (Some d, self2) ∧
    d !! "_id" = Some kline_id ∧ d !! "t" = Some (VInt 3).
Proof.
  assert (well_formed "ETH/BTC") as Hwf by (by exists "ETH", "BTC").
  destruct (latest_kline_is_last_stored 9 "ETH/BTC" (VStr "1") (VStr "2") (VStr "0.5")
              (VStr "1.5") (VInt 3) kline5 Hwf) as (k & s1 & d & s2 & H1 & H2 & H3 & H4 & _).
  - intros cur e c' He Hc'.
    destruct (decide (cur = ("binance", "kline_eth_btc"))) as [->|Hne].
    + vm_compute in He. apply list_elem_of_singleton in He. subst e.
      vm_compute in Hc'. injection Hc' as <-. lia.
    + exfalso. unfold docs_at in He.
      change (_conn kline5) with
        (add_doc ("binance", "kline_eth_btc")
           (default ∅ (head (docs_at ("binance", "kline_eth_btc") (_conn kline5))))
           empty_mongo) in He.
      simpl in He. rewrite lookup_insert_ne, lookup_empty in He by done.
      by apply elem_of_nil in He.
  - by exists k, s1, d, s2.
Defined.

(** ** Orders *)

Section orders.
Local Open Scope list_scope.
Implicit Types (d e : gmap string value) (l : list (gmap string value)) (db : mongo).

Lemma sort_docs_unsorted l : sort_docs [] l = l.
Proof.
  induction l as [|d l IH]; simpl; [done|]. rewrite IH. by destruct l.
Qed.

Lemma find_one_unsorted spec cur db :
  find_one spec [] [] cur db = head (filter (λ d, matches spec d = true) (docs_at cur db)).
Proof.
  unfold find_one, get_list. rewrite sort_docs_unsorted, head_fmap.
  by destruct (head _).
Qed.

Lemma head_filter_Some {A} (P : A → Prop) `{!∀ x, Decision (P x)} (xs : list A) x :
  head (filter P xs) = Some x →
  ∃ xs1 xs2, xs = xs1 ++ x :: xs2 ∧ P x ∧ Forall (λ y, ¬ P y) xs1.
Proof.
  induction xs as [|y xs IH]; [done|]. rewrite filter_cons. case_decide as Hy.
  - intros [= ->]. by exists [], xs.
  - intros (xs1 & xs2 & -> & Hx & Hxs1)%IH. exists (y :: xs1), xs2.
    split_and!; [done..|]. by constructor.
Qed.

Lemma head_filter_None {A} (P : A → Prop) `{!∀ x, Decision (P x)} (xs : list A) :
  head (filter P xs) = None → Forall (λ y, ¬ P y) xs.
Proof.
  induction xs as [|y xs IH]; [by constructor|]. rewrite filter_cons. case_decide as Hy.
  - done.
  - intros Hhd. constructor; [done|by apply IH].
Qed.

Lemma matches_order_key (platform order_no : value) d :
  matches [("p", Is platform); ("n", Is order_no)] d = true ↔ order_key platform order_no d.
Proof. rewrite !matches_cons, !match_cond_is. unfold order_key; simpl. tauto. Qed.

Lemma create_new_order_stored (now : Z) (o : Order) db :
  ∃ d, docs_at order_cursor (create_new_order now o db).2 = docs_at order_cursor db ++ [d] ∧
       order_fields o d ∧ d !! "_id" = Some (create_new_order now o db).1.
Proof.
  unfold create_new_order, insert; simpl. eexists. split; [apply docs_at_add_doc|].
  unfold order_fields. by split_and!.
Qed.
End orders.

(** X7. [get_order_by_no] returns the oldest stored order with the given
    platform and order number, and [None] when no stored order has
    them. *)
Theorem get_order_by_no_first_match (platform order_no : value) (db : mongo) :
  match get_order_by_no platform order_no db with
  | Some d =>
      ∃ l1 l2, docs_at order_cursor db = (l1 ++ d :: l2)%list ∧
               order_key platform order_no d ∧
               Forall (λ e, ¬ order_key platform order_no e) l1
  | None => Forall (λ e, ¬ order_key platform order_no e) (docs_at order_cursor db)
  end.
Proof.
  unfold get_order_by_no. rewrite find_one_unsorted.
  destruct (head _) as [d|] eqn:Hd.
  - apply head_filter_Some in Hd as (l1 & l2 & Hl & Hm & Hl1).
    exists l1, l2. split_and!; [done|by apply matches_order_key|].
    eapply Forall_impl; [exact Hl1|]. intros e He Hk. by apply He, matches_order_key.
  - apply head_filter_None in Hd.
    eapply Forall_impl; [exact Hd|]. intros e He Hk. by apply He, matches_order_key.
Qed.

(** X8. An order stored by [create_new_order], when no stored order had
    its platform and order number, is what [get_order_by_no] returns for
    them: the document has the identifier the store gave and the fifteen
    fields of the order. *)
Theorem stored_order_is_found (now : Z) (o : Order) (db : mongo) :
  Forall (λ e, ¬ order_key (platform o) (order_no o) e) (docs_at order_cursor db) →
  ∃ d, get_order_by_no (platform o) (order_no o) (create_new_order now o db).2 = Some d ∧
       order_fields o d ∧ d !! "_id" = Some (create_new_order now o db).1.
Proof.
  intros Hnew. destruct (create_new_order_stored now o db) as (d & Hd & Hf & Hid).
  exists d. split; [|done].
  unfold get_order_by_no. rewrite find_one_unsorted, Hd, filter_app.
  assert (filter (λ e, matches [("p", Is (platform o)); ("n", Is (order_no o))] e = true)
            (docs_at order_cursor db) = []) as ->.
  { apply elem_of_nil_inv. intros e [He Hin]%list_elem_of_filter.
    rewrite Forall_forall in Hnew. by apply (Hnew e Hin), matches_order_key. }
  rewrite filter_cons, decide_True; [done|].
  apply matches_order_key. destruct Hf as (? & _ & _ & _ & ? & _). by split.
Qed.

Lemma stored_order_is_found_witness :
  ∃ d, get_order_by_no (VStr "binance") (VStr "42")
         (create_new_order 1000 order_new empty_mongo).2 = Some d ∧
       order_fields order_new d.
Proof.
  destruct (stored_order_is_found 1000 order_new empty_mongo) as (d & H1 & H2 & _).
  - constructor.
  - by exists d.
Defined.

(** X9. [update_order_infos] keeps the number and the order of the
    stored orders and, in each of them, every field other than [s] and
    [r]; it touches no other collection. *)
Theorem update_order_infos_frame (order : Order) (db : mongo) :
  Forall2 (λ d d', ∀ k, k ≠ "s" → k ≠ "r" → d' !! k = d !! k)
    (docs_at order_cursor db) (docs_at order_cursor (update_order_infos order db).2) ∧
  (∀ cur, cur ≠ order_cursor →
     docs_at cur (update_order_infos order db).2 = docs_at cur db).
Proof.
  unfold update_order_infos, update.
  destruct (update_first _ _ _) as [l'|] eqn:Hup; simpl.
  - apply update_first_Some in Hup as (l1 & d & l2 & Hl & _ & _ & ->). split.
    + rewrite docs_at_set_docs, Hl.
      apply Forall2_app; [by apply Forall_Forall2_diag, Forall_forall|].
      constructor; [|by apply Forall_Forall2_diag, Forall_forall].
      intros k Hs Hr. rewrite lookup_apply_update, decide_False by apply not_elem_of_nil.
      apply lookup_union_r. by rewrite !lookup_insert_ne, lookup_empty.
    + intros cur Hcur. by apply docs_at_set_docs_ne.
  - split; [by apply Forall_Forall2_diag, Forall_forall|done].
Qed.

(** X10. [update_order_infos] does not create orders: when no stored
    order has the platform and order number of the object it returns
    [0] and leaves the store as it was; when one has, it returns [1]. *)
Theorem update_order_infos_needs_stored_order (order : Order) (db : mongo) :
  (Forall (λ e, ¬ order_key (platform order) (order_no order) e) (docs_at order_cursor db) →
   update_order_infos order db = (0, db)) ∧
  (Exists (order_key (platform order) (order_no order)) (docs_at order_cursor db) →
   (update_order_infos order db).1 = 1).
Proof.
  unfold update_order_infos, update. split.
  - intros Hnone.
    assert (update_first (λ d, matches [("p", Is (platform order)); ("n", Is (order_no order))] d)
              (apply_update (<["s":=status order]> (<["r":=remain order]> ∅)) [])
              (docs_at order_cursor db) = None) as ->; [|done].
    apply update_first_None. eapply Forall_impl; [exact Hnone|].
    intros e He. destruct (matches _ e) eqn:Hm; [|done]. by apply matches_order_key in Hm.
  - intros (e & Hin & Hk)%Exists_exists.
    destruct (update_first _ _ _) as [l'|] eqn:Hup; [done|].
    apply update_first_None in Hup. rewrite Forall_forall in Hup.
    apply matches_order_key in Hk. specialize (Hup e Hin). cbv beta in Hup. congruence.
Qed.

(** X11. [get_latest_order] returns a stored order of the given platform
    and symbol whose update time is the greatest among them, and [None]
    when there is none. *)
Theorem get_latest_order_newest (platform symbol : value) (db : mongo) :
  match get_latest_order platform symbol db with
  | Some d =>
      d ∈ docs_at order_cursor db ∧ d !! "p" = Some platform ∧ d !! "S" = Some symbol ∧
      ∀ e t, e ∈ docs_at order_cursor db → e !! "p" = Some platform →
             e !! "S" = Some symbol → e !! "ut" = Some (VInt t) →
             ∃ t', d !! "ut" = Some (VInt t') ∧ t ≤ t'
  | None =>
      ∀ e, e ∈ docs_at order_cursor db →
           ¬ (e !! "p" = Some platform ∧ e !! "S" = Some symbol)
  end.
Proof.
  unfold get_latest_order.
  pose proof (find_one_latest [("p", Is platform); ("S", Is symbol)] "ut" order_cursor db) as H.
  assert (∀ e, matches [("p", Is platform); ("S", Is symbol)] e = true
               ↔ e !! "p" = Some platform ∧ e !! "S" = Some symbol) as Hm.
  { intros e. rewrite !matches_cons, !match_cond_is. simpl. tauto. }
  destruct (find_one _ _ _ _ _) as [d|].
  - destruct H as (Hin & [Hp HS]%Hm & Hmax). split_and!; [done..|].
    intros e t He Hep HeS Het. apply (Hmax e t He); [|done]. by apply Hm.
  - intros e He Hk%Hm. specialize (H e He). congruence.
Qed.

(** ** Assets and their snapshots *)

Section balances.
Local Open Scope list_scope.
Implicit Types (d e a m : gmap string value) (db : mongo) (platform account : string).

Lemma del_id_Some a : is_Some (a !! "_id") → del_id (Some a) = Done (Some (delete "_id" a)).
Proof.
  intros [v Hv]. unfold del_id. case_decide as He.
  - subst a. by rewrite lookup_empty in Hv.
  - by rewrite Hv.
Qed.

Lemma matches_owned_by platform account d :
  matches [("platform", Is (VStr platform)); ("account", Is (VStr account))] d = true
  ↔ owned_by platform account d.
Proof. rewrite !matches_cons, !match_cond_is. unfold owned_by; simpl. tauto. Qed.

Lemma matches_snapshot platform account start end_ d :
  matches [("platform", Is (VStr platform)); ("account", Is (VStr account));
           ("timestamp", Between (Some start) (Some end_))] d = true
  ↔ snapshot_in_window platform account start end_ d.
Proof.
  rewrite !matches_cons, !match_cond_is. fold (matches [("timestamp", Between (Some start) (Some end_))] d).
  rewrite <- matches_cons, matches_range.
  unfold snapshot_in_window, owned_by; simpl. tauto.
Qed.

(** The fields of a stored document that the caller gave. *)
Lemma lookup_stored (now : Z) (oid : value) m k :
  k ∉ store_fields →
  (<["update_time" := VInt now]> (<["create_time" := VInt now]> (<["_id" := oid]> m))) !! k
  = m !! k.
Proof.
  unfold store_fields. rewrite !not_elem_of_cons. intros (? & ? & ? & _).
  by rewrite !lookup_insert_ne.
Qed.

(** The document [create_new_asset] builds before the insert: the
    balances, and the three key fields where no balance has their
    name. *)
Lemma lookup_with_items asset platform account (timestamp : Z) k :
  asset !! k = None →
  with_items asset (<["platform" := VStr platform]> (<["account" := VStr account]>
    (<["timestamp" := VInt timestamp]> ∅))) !! k
  = (<["platform" := VStr platform]> (<["account" := VStr account]>
      (<["timestamp" := VInt timestamp]> (∅ : gmap string value)))) !! k.
Proof. intros Hk. unfold with_items. by apply lookup_union_r. Qed.

Lemma get_asset_snapshot_window (now : Z) platform account (start end_ : option Z) db :
  get_asset_snapshot now platform account start end_ db =
  project ["platform"; "account"; "update_time"] <$>
    filter (snapshot_in_window platform account
              (snapshot_bounds now start end_).1 (snapshot_bounds now start end_).2)
      (docs_at snapshot_cursor db).
Proof.
  unfold get_asset_snapshot. destruct (snapshot_bounds now start end_) as [s e]. simpl.
  unfold get_list. rewrite sort_docs_unsorted. f_equal.
  apply list_filter_iff. intros d. apply matches_snapshot.
Qed.

Lemma snapshot_bounds_given (now start end_ : Z) :
  start ≠ 0 → end_ ≠ 0 → snapshot_bounds now (Some start) (Some end_) = (start, end_).
Proof.
  intros Hs He. unfold snapshot_bounds, truthy.
  destruct (Z.eqb_spec end_ 0) as [?|_]; [done|].
  by destruct (Z.eqb_spec start 0) as [?|_].
Qed.

Lemma update_asset_cases platform account asset (timestamp : Z) delete db :
  (∃ l1 d l2 d',
     docs_at asset_cursor db = l1 ++ d :: l2 ∧
     update_asset platform account asset timestamp delete db
     = (1, set_docs asset_cursor (l1 ++ d' :: l2) db))
  ∨ (Forall (λ e, ¬ asset_key platform account timestamp e) (docs_at asset_cursor db) ∧
     ∃ d', update_asset platform account asset timestamp delete db
           = (0, add_doc asset_cursor d' db)).
Proof.
  unfold update_asset, update.
  destruct (update_first _ _ _) as [l'|] eqn:Hup.
  - left. apply update_first_Some in Hup as (l1 & d & l2 & Hl & _ & _ & ->). eauto 6.
  - right. apply update_first_None in Hup. split; [|eauto].
    eapply Forall_impl; [exact Hup|]. intros e. apply matches_asset_key_false.
Qed.
End balances.

(** X12. When every stored asset document carries its identifier,
    [get_latest_asset] does not raise: it returns a document of the given
    platform and account whose timestamp is the greatest among them,
    without its identifier, creation time and update time, and [None]
    when the platform and account have no document. *)
Theorem get_latest_asset_newest (platform account : string) (db : mongo) :
  Forall (λ e, is_Some (e !! "_id")) (docs_at asset_cursor db) →
  ∃ r, get_latest_asset platform account db = Done r ∧
    match r with
    | Some a =>
        ∃ e, e ∈ docs_at asset_cursor db ∧ owned_by platform account e ∧
             a = delete "_id" (strip_bookkeeping e) ∧
             ∀ e' t', e' ∈ docs_at asset_cursor db → owned_by platform account e' →
                      e' !! "timestamp" = Some (VInt t') →
                      ∃ t, e !! "timestamp" = Some (VInt t) ∧ t' ≤ t
    | None => ∀ e, e ∈ docs_at asset_cursor db → ¬ owned_by platform account e
    end.
Proof.
  intros Hid. unfold get_latest_asset. rewrite find_one_project.
  pose proof (find_one_latest
                [("platform", Is (VStr platform)); ("account", Is (VStr account))]
                "timestamp" asset_cursor db) as H.
  destruct (find_one _ [] _ _ _) as [e|].
  - destruct H as (Hin & Hm%matches_owned_by & Hmax).
    rewrite Forall_forall in Hid. specialize (Hid e Hin).
    change (project ["create_time"; "update_time"] <$> Some e)
      with (Some (project ["create_time"; "update_time"] e)).
    rewrite del_id_Some by (by rewrite lookup_project by (rewrite !elem_of_cons, elem_of_nil;
                                                           by intros [?|[?|[]]])).
    eexists. split; [reflexivity|]. exists e. split_and!; [done..|].
    intros e' t' Hin' Ho' Ht'. apply (Hmax e' t' Hin'); [|done]. by apply matches_owned_by.
  - exists None. split; [done|]. intros e Hin Ho%matches_owned_by.
    specialize (H e Hin). congruence.
Qed.

Lemma get_latest_asset_newest_witness :
  ∃ r, get_latest_asset "binance" "a@x.com" eth_held = Done r ∧
    match r with
    | Some a => ∃ e, e ∈ docs_at asset_cursor eth_held ∧ a = delete "_id" (strip_bookkeeping e)
    | None => ∀ e, e ∈ docs_at asset_cursor eth_held → ¬ owned_by "binance" "a@x.com" e
    end.
Proof.
  destruct (get_latest_asset_newest "binance" "a@x.com" eth_held) as (r & Hr & Hspec).
  - vm_compute. repeat constructor. by eexists.
  - exists r. split; [exact Hr|]. destruct r as [a|]; [|exact Hspec].
    destruct Hspec as (e & He & _ & Ha & _). by exists e.
Defined.

(** X13. Balances recorded by [create_new_asset] with a timestamp above
    those stored for the platform and account are what
    [get_latest_asset] returns next: the three key fields and the
    balances, nothing else. The balances must not use the name of a key
    field or of a field the store adds. *)
Theorem recorded_asset_is_latest (now : Z) (platform account : string)
    (asset : gmap string value) (timestamp : Z) (db : mongo) :
  Forall (λ k, asset !! k = None) (key_fields ++ store_fields) →
  Forall (λ e, owned_by platform account e →
               ∀ t, e !! "timestamp" = Some (VInt t) → t < timestamp)
    (docs_at asset_cursor db) →
  get_latest_asset platform account
    (create_new_asset now platform account asset timestamp db).2
  = Done (Some (with_items asset
                  (<["platform" := VStr platform]> (<["account" := VStr account]>
                     (<["timestamp" := VInt timestamp]> ∅))))).
Proof.
  unfold key_fields, store_fields. rewrite !Forall_app, !Forall_cons.
  intros [(Hp & Ha & Ht & _) (Hi & Hc & Hu & _)] Hold.
  unfold get_latest_asset, create_new_asset, insert. simpl. rewrite find_one_project.
  set (given := with_items asset _).
  set (stored := <["update_time":=_]> _).
  assert (∀ k, k ∉ store_fields → stored !! k = given !! k) as Hstored.
  { intros k Hk. by apply lookup_stored. }
  assert (stored !! "platform" = Some (VStr platform) ∧
          stored !! "account" = Some (VStr account) ∧
          stored !! "timestamp" = Some (VInt timestamp)) as (Hsp & Hsa & Hst).
  { rewrite !Hstored by (unfold store_fields; rewrite !elem_of_cons, elem_of_nil;
                         by intros [?|[?|[?|[]]]]).
    unfold given. by rewrite !lookup_with_items. }
  rewrite (find_one_newest _ "timestamp" asset_cursor db stored timestamp).
  - change (project ["create_time"; "update_time"] <$> Some stored)
      with (Some (project ["create_time"; "update_time"] stored)).
    rewrite del_id_Some.
    + do 2 f_equal. apply map_eq. intros k.
      destruct (decide (k = "_id")) as [->|Hk1].
      { rewrite lookup_delete_eq. unfold given. by rewrite lookup_with_items. }
      rewrite lookup_delete_ne by done.
      destruct (decide (k = "create_time")) as [->|Hk2].
      { rewrite lookup_project_elem by (by left). unfold given.
        by rewrite lookup_with_items. }
      destruct (decide (k = "update_time")) as [->|Hk3].
      { rewrite lookup_project_elem by (right; by left). unfold given.
        by rewrite lookup_with_items. }
      rewrite lookup_project by (rewrite !elem_of_cons, elem_of_nil; by intros [?|[?|[]]]).
      apply Hstored. unfold store_fields. rewrite !elem_of_cons, elem_of_nil.
      by intros [?|[?|[?|[]]]].
    + rewrite lookup_project by (rewrite !elem_of_cons, elem_of_nil; by intros [?|[?|[]]]).
      unfold stored. rewrite !lookup_insert_ne, lookup_insert_eq by done. by eexists.
  - by apply matches_owned_by.
  - by apply int_field_Some.
  - eapply Forall_impl; [exact Hold|]. intros e He Hm%matches_owned_by. by apply He.
Qed.

Lemma recorded_asset_is_latest_witness :
  get_latest_asset "binance" "a@x.com"
    (create_new_asset 5 "binance" "a@x.com" btc_balance 2000 eth_held).2
  = Done (Some (with_items btc_balance
                  (<["platform" := VStr "binance"]> (<["account" := VStr "a@x.com"]>
                     (<["timestamp" := VInt 2000]> ∅))))).
Proof.
  apply recorded_asset_is_latest.
  - unfold key_fields, store_fields. by repeat constructor.
  - vm_compute. repeat constructor. intros _ t [= <-]. reflexivity.
Defined.

(** X14. [update_asset] never removes or reorders a document and creates
    at most one: either it returns [1] and the collection keeps its
    length, or it returns [0] and the collection has one document
    more. *)
Theorem update_asset_count_and_growth (platform account : string)
    (asset : gmap string value) (timestamp : Z) (delete : option (list string))
    (db : mongo) :
  let r := update_asset platform account asset timestamp delete db in
  (r.1 = 1 ∧ length (docs_at asset_cursor r.2) = length (docs_at asset_cursor db)) ∨
  (r.1 = 0 ∧ length (docs_at asset_cursor r.2) = S (length (docs_at asset_cursor db))).
Proof.
  intros r. unfold r.
  destruct (update_asset_cases platform account asset timestamp delete db)
    as [(l1 & d & l2 & d' & Hl & ->)|(_ & d' & ->)]; simpl.
  - left. split; [done|]. rewrite docs_at_set_docs, Hl, !length_app. reflexivity.
  - right. split; [done|]. rewrite docs_at_add_doc, length_app. simpl. lia.
Qed.

(** X15. Balances recorded by [create_new_asset], when they do not use
    the name of a key field, are found by [update_asset] with the same
    platform, account and timestamp: it returns [1] and creates no
    document. *)
Theorem recorded_asset_is_merged (now : Z) (platform account : string)
    (asset0 asset : gmap string value) (timestamp : Z) (delete : option (list string))
    (db : mongo) :
  Forall (λ k, asset0 !! k = None) key_fields →
  let db1 := (create_new_asset now platform account asset0 timestamp db).2 in
  (update_asset platform account asset timestamp delete db1).1 = 1 ∧
  length (docs_at asset_cursor (update_asset platform account asset timestamp delete db1).2)
  = S (length (docs_at asset_cursor db)).
Proof.
  intros Hkeys db1. unfold key_fields in Hkeys. rewrite !Forall_cons in Hkeys.
  destruct Hkeys as (Hp & Ha & Ht & _).
  assert (docs_at asset_cursor db1 =
          (docs_at asset_cursor db ++
             [<["update_time" := VInt now]> (<["create_time" := VInt now]>
                (<["_id" := VId (next_id db)]>
                   (with_items asset0
                      (<["platform" := VStr platform]> (<["account" := VStr account]>
                         (<["timestamp" := VInt timestamp]> ∅))))))])%list) as Hdocs.
  { unfold db1, create_new_asset, insert. simpl. apply docs_at_add_doc. }
  destruct (update_asset_cases platform account asset timestamp delete db1)
    as [(l1 & d & l2 & d' & Hl & ->)|(Hnone & _)]; simpl.
  - split; [done|]. rewrite docs_at_set_docs.
    apply (f_equal length) in Hl. rewrite Hdocs in Hl.
    rewrite length_app. rewrite 2!length_app in Hl. simpl in Hl |- *. lia.
  - exfalso. rewrite Hdocs, Forall_app, Forall_singleton in Hnone.
    destruct Hnone as [_ Hnone]. apply Hnone. unfold asset_key.
    rewrite !lookup_stored by (unfold store_fields; rewrite !elem_of_cons, elem_of_nil;
                               by intros [?|[?|[?|[]]]]).
    by rewrite !lookup_with_items.
Qed.

Lemma recorded_asset_is_merged_witness :
  (update_asset "binance" "a@x.com" btc_balance 1000 None eth_held).1 = 1.
Proof.
  exact (proj1 (recorded_asset_is_merged 1 "binance" "a@x.com"
                  {["ETH" := VBalance "2" "0" "2"]} btc_balance 1000 None empty_mongo
                  ltac:(unfold key_fields; by repeat constructor))).
Defined.

(** X16. With both bounds given and not [0], [get_asset_snapshot] returns
    the snapshots of the platform and account taken between the bounds,
    in stored order, without platform, account and update time, whatever
    the clock. *)
Theorem snapshot_explicit_window (now : Z) (platform account : string) (start end_ : Z)
    (db : mongo) :
  start ≠ 0 → end_ ≠ 0 →
  get_asset_snapshot now platform account (Some start) (Some end_) db =
  project ["platform"; "account"; "update_time"] <$>
    filter (snapshot_in_window platform account start end_) (docs_at snapshot_cursor db).
Proof.
  intros Hs He. by rewrite get_asset_snapshot_window, snapshot_bounds_given.
Qed.

Lemma snapshot_explicit_window_witness :
  get_asset_snapshot 0 "binance" "a@x.com" (Some (clock - 7200000)) (Some clock) hour_old =
  project ["platform"; "account"; "update_time"] <$>
    filter (snapshot_in_window "binance" "a@x.com" (clock - 7200000) clock)
      (docs_at snapshot_cursor hour_old).
Proof. apply snapshot_explicit_window; by vm_compute. Defined.

(** X17. A bound given as [0] counts as omitted: with start [0] and an
    end other than [0] the window begins 86 400 before the end, not at
    [0]; with end [0] and a start other than [0] the window ends at the
    clock. *)
Theorem snapshot_zero_bound_is_omitted (now : Z) (platform account : string) (bound : Z)
    (db : mongo) :
  bound ≠ 0 →
  get_asset_snapshot now platform account (Some 0) (Some bound) db =
    (project ["platform"; "account"; "update_time"] <$>
       filter (snapshot_in_window platform account (bound - 86400) bound)
         (docs_at snapshot_cursor db)) ∧
  get_asset_snapshot now platform account (Some bound) (Some 0) db =
    (project ["platform"; "account"; "update_time"] <$>
       filter (snapshot_in_window platform account bound now)
         (docs_at snapshot_cursor db)).
Proof.
  intros Hb. rewrite !get_asset_snapshot_window. unfold snapshot_bounds, truthy.
  destruct (Z.eqb_spec bound 0) as [?|_]; [done|]. by split.
Qed.

Lemma snapshot_zero_bound_is_omitted_witness :
  get_asset_snapshot clock "binance" "a@x.com" (Some 0) (Some clock) hour_old = [].
Proof.
  rewrite (proj1 (snapshot_zero_bound_is_omitted clock "binance" "a@x.com" clock hour_old
                    ltac:(by vm_compute))).
  by vm_compute.
Defined.

(** X18. In the document [create_new_asset] stores, a balance whose
    name is that of a key field replaces the key field, since the
    balances are written after the key; the identifier and the two times
    are the store's, whatever the balances name. A key field that no
    balance names has the value given. *)
Theorem create_new_asset_precedence (now : Z) (platform account : string)
    (asset : gmap string value) (timestamp : Z) (db : mongo) :
  ∃ d,
    docs_at asset_cursor (create_new_asset now platform account asset timestamp db).2
    = (docs_at asset_cursor db ++ [d])%list ∧
    d !! "_id" = Some (create_new_asset now platform account asset timestamp db).1 ∧
    d !! "create_time" = Some (VInt now) ∧ d !! "update_time" = Some (VInt now) ∧
    (∀ k v, k ∉ store_fields → asset !! k = Some v → d !! k = Some v) ∧
    (asset !! "platform" = None → d !! "platform" = Some (VStr platform)) ∧
    (asset !! "account" = None → d !! "account" = Some (VStr account)) ∧
    (asset !! "timestamp" = None → d !! "timestamp" = Some (VInt timestamp)).
Proof.
  unfold create_new_asset, insert. simpl. eexists. split; [apply docs_at_add_doc|].
  split_and!.
  - rewrite !lookup_insert_ne by done. by rewrite lookup_insert_eq.
  - rewrite lookup_insert_ne by done. by rewrite lookup_insert_eq.
  - by rewrite lookup_insert_eq.
  - intros k v Hk Hv. rewrite lookup_stored by done. by apply lookup_union_Some_l.
  - intros Hk. rewrite lookup_stored, lookup_with_items; [done..|].
    unfold store_fields. rewrite !elem_of_cons, elem_of_nil. by intros [?|[?|[?|[]]]].
  - intros Hk. rewrite lookup_stored, lookup_with_items; [done..|].
    unfold store_fields. rewrite !elem_of_cons, elem_of_nil. by intros [?|[?|[?|[]]]].
  - intros Hk. rewrite lookup_stored, lookup_with_items; [done..|].
    unfold store_fields. rewrite !elem_of_cons, elem_of_nil. by intros [?|[?|[?|[]]]].
Qed.

(** X20. A snapshot recorded by [AssetSnapshotData.create_new_asset],
    when its balances do not use the name of a key field, is returned by
    [get_asset_snapshot] for the same platform and account and any
    bounds other than [0] around its timestamp; the result carries the
    identifier, the timestamp and the balances. *)
Theorem recorded_snapshot_is_in_range (now clock_at_read : Z) (platform account : string)
    (asset : gmap string value) (timestamp start end_ : Z) (db : mongo) :
  Forall (λ k, asset !! k = None) key_fields →
  start ≠ 0 → end_ ≠ 0 → start ≤ timestamp ≤ end_ →
  ∃ d, d ∈ get_asset_snapshot clock_at_read platform account (Some start) (Some end_)
             (create_new_asset_snapshot now platform account asset timestamp db).2 ∧
       d !! "_id" = Some (create_new_asset_snapshot now platform account asset timestamp db).1 ∧
       d !! "timestamp" = Some (VInt timestamp) ∧
       ∀ k v, k ∉ ["_id"; "create_time"; "update_time"; "platform"; "account"] →
              asset !! k = Some v → d !! k = Some v.
Proof.
  intros Hkeys Hs He Hb. unfold key_fields in Hkeys. rewrite !Forall_cons in Hkeys.
  destruct Hkeys as (Hp & Ha & Ht & _).
  rewrite get_asset_snapshot_window, snapshot_bounds_given by done.
  unfold create_new_asset_snapshot, insert. simpl. rewrite docs_at_add_doc.
  set (stored := <["update_time":=_]> _).
  assert (∀ k, k ∉ store_fields → asset !! k = None →
               stored !! k = (<["platform" := VStr platform]> (<["account" := VStr account]>
                               (<["timestamp" := VInt timestamp]> (∅ : gmap string value)))) !! k)
    as Hkey.
  { intros k Hk Hk'. unfold stored. by rewrite lookup_stored, lookup_with_items. }
  assert (∀ k, k ∈ key_fields → k ∉ store_fields) as Hdisj.
  { intros k. unfold key_fields, store_fields. rewrite !elem_of_cons, !elem_of_nil.
    intros [->|[->|[->|[]]]] [?|[?|[?|[]]]]; done. }
  exists (project ["platform"; "account"; "update_time"] stored). split_and!.
  - apply list_elem_of_fmap. exists stored. split; [done|].
    apply list_elem_of_filter. split; [|apply elem_of_app; right; by left].
    split; [split|exists timestamp; split; [|done]];
      rewrite Hkey; try done; apply Hdisj; unfold key_fields; repeat constructor.
  - rewrite lookup_project by (rewrite !elem_of_cons, elem_of_nil; by intros [?|[?|[?|[]]]]).
    unfold stored. rewrite !lookup_insert_ne by done. by rewrite lookup_insert_eq.
  - rewrite lookup_project by (rewrite !elem_of_cons, elem_of_nil; by intros [?|[?|[?|[]]]]).
    rewrite Hkey; [done| |done]. apply Hdisj. unfold key_fields. repeat constructor.
  - intros k v Hk Hv. rewrite !not_elem_of_cons in Hk.
    destruct Hk as (? & ? & ? & ? & ? & _).
    rewrite lookup_project by (rewrite !elem_of_cons, elem_of_nil; by intros [?|[?|[?|[]]]]).
    unfold stored. rewrite lookup_stored.
    + by apply lookup_union_Some_l.
    + unfold store_fields. rewrite !elem_of_cons, elem_of_nil. by intros [?|[?|[?|[]]]].
Qed.

Lemma recorded_snapshot_is_in_range_witness :
  ∃ d, d ∈ get_asset_snapshot 0 "binance" "a@x.com" (Some 1500) (Some 2500)
             (create_new_asset_snapshot 5 "binance" "a@x.com" btc_balance 2000 hour_old).2 ∧
       d !! "timestamp" = Some (VInt 2000) ∧ d !! "BTC" = Some (VBalance "1" "0" "1").
Proof.
  destruct (recorded_snapshot_is_in_range 5 0 "binance" "a@x.com" btc_balance 2000 1500 2500
              hour_old) as (d & H1 & _ & H2 & H3); try done.
  - unfold key_fields. by repeat constructor.
  - exists d. split_and!; [exact H1|exact H2|].
    apply H3; [|reflexivity].
    rewrite !elem_of_cons, elem_of_nil. by intros [?|[?|[?|[?|[?|[]]]]]].
Defined.
